(** * ASPAS: the line record store and the plate scanner

    A shallow embedding of [ASPAS.py].  The two classes of the script are
    modelled as they are written:

    - [Data], the container of emission lines and comments with its
      save/load routines, and
    - [Comparator], of which only the methods that touch [Data], compute
      the intensity samples or place the scan line are kept (the Tk
      widgets are not modelled; the notification label is kept as a
      string field).

    Python values are represented as follows.  A [float] is an exact
    rational ([Qc], canonical fractions, so that Leibniz equality is [==]);
    rounding of the binary representation is not modelled, nor are the
    infinities and nan.  The statements that depend on the value of an
    arithmetic result are therefore written with tolerances or as
    inequalities that the binary rounding preserves, or say which test of
    the program they refer to.  A
    [defaultdict] keyed by floats is a [gmap Qc _] together with the
    read-inserts-default behaviour of [__getitem__].  Methods are
    computations in a state-and-exception monad over the object they
    mutate: a raised exception keeps the mutations made before it. *)

From Stdlib Require Import ZArith QArith Qcanon Qround Ascii String Lqa.
From stdpp Require Import base gmap strings list sorting numbers.

Local Open Scope Qc_scope.

(** ** Python: exceptions, statements, builtins *)

Module Py.

Inductive exn : Set :=
| KeyError | IndexError | ValueError | ZeroDivisionError | OSError.

Inductive result (A : Type) : Type :=
| Ok (a : A)
| Raise (e : exn).
Global Arguments Ok {A} a.
Global Arguments Raise {A} e.

(** A method running on an object of type [S]. *)
Definition M (S A : Type) : Type := S → S * result A.

Definition ret {S A} (a : A) : M S A := λ s, (s, Ok a).
Definition bind {S A B} (c : M S A) (k : A → M S B) : M S B :=
  λ s, match c s with
       | (s', Ok a) => k a s'
       | (s', Raise e) => (s', Raise e)
       end.
Definition raise {S A} (e : exn) : M S A := λ s, (s, Raise e).
Definition get {S} : M S S := λ s, (s, Ok s).
Definition modify {S} (f : S → S) : M S () := λ s, (f s, Ok ()).

(** [try: c except: h] with a bare [except]. *)
Definition try_except {S A} (c : M S A) (h : M S A) : M S A :=
  λ s, match c s with
       | (s', Ok a) => (s', Ok a)
       | (s', Raise _) => h s'
       end.

(** [for x in xs: body x] *)
Fixpoint for_ {S A} (xs : list A) (body : A → M S ()) : M S () :=
  match xs with
  | [] => ret ()
  | x :: xs' => bind (body x) (λ _, for_ xs' body)
  end.

(** Run a method of a sub-object stored in a field. *)
Definition on_field {S T A} (proj : S → T) (upd : T → S → S)
    (c : M T A) : M S A :=
  λ s, let '(t', r) := c (proj s) in (upd t' s, r).

Definition of_Z (n : Z) : Qc := Q2Qc (inject_Z n).

(** [abs(x)] *)
Definition abs (x : Qc) : Qc := if decide (x < 0) then - x else x.

(** [x / y] on floats. *)
Definition truediv {S} (x y : Qc) : M S Qc :=
  if decide (y = 0) then raise ZeroDivisionError else ret (x / y).

(** [xs[i]] on a list. *)
Definition index {S A} (xs : list A) (i : nat) : M S A :=
  match xs !! i with
  | Some x => ret x
  | None => raise IndexError
  end.

(** [d[k]] on a [defaultdict(lambda: dflt)]: a missing key is inserted
    with the default before it is returned. *)
Definition dd_getitem {V} (dflt : V) (k : Qc) (d : gmap Qc V) : V * gmap Qc V :=
  match d !! k with
  | Some v => (v, d)
  | None => (dflt, <[k := dflt]> d)
  end.

(** [del d[k]]: the default factory is not consulted. *)
Definition dd_delitem {V} (k : Qc) (d : gmap Qc V) : result (gmap Qc V) :=
  match d !! k with
  | Some _ => Ok (delete k d)
  | None => Raise KeyError
  end.

Global Instance exn_eq_dec : EqDecision exn.
Proof. solve_decision. Defined.
Global Instance result_eq_dec {A} `{EqDecision A} : EqDecision (result A).
Proof. solve_decision. Defined.

End Py.

Global Instance M_ret {S} : MRet (Py.M S) := @Py.ret S.
Global Instance M_bind {S} : MBind (Py.M S) := λ A B k c, Py.bind c k.

(** ** Python: strings and the conversions between floats and text *)

Module PyStr.

Definition ord (c : ascii) : N := N_of_ascii c.

(** [c.isspace()] for a code point below 256. *)
Definition isspace (c : ascii) : bool :=
  let n := ord c in
  ((9 <=? n) && (n <=? 13) || (28 <=? n) && (n <=? 32)
   || (n =? 133) || (n =? 160))%N.

Definition newline : ascii := ascii_of_N 10.

(** [s.split()]: the maximal runs of non-blank characters.  [fields s]
    is the (possibly empty) word starting at the head of [s] and the
    words after it. *)
Fixpoint fields (s : string) : string * list string :=
  match s with
  | EmptyString => (EmptyString, [])
  | String c s' =>
      let '(w, ws) := fields s' in
      if isspace c
      then (EmptyString, match w with EmptyString => ws | _ => w :: ws end)
      else (String c w, ws)
  end.

Definition split (s : string) : list string :=
  let '(w, ws) := fields s in
  match w with EmptyString => ws | _ => w :: ws end.

Definition carriage_return : ascii := ascii_of_N 13.

Definition is_eol (c : ascii) : bool :=
  bool_decide (c = newline ∨ c = carriage_return).

(** [f.readlines()] on a file opened in text mode: every line keeps its
    terminator, and the terminators CR LF and CR are read as a newline. *)
Fixpoint readlines (s : string) : list string :=
  match s with
  | EmptyString => []
  | String c s' =>
      if decide (c = newline) then String newline EmptyString :: readlines s'
      else if decide (c = carriage_return) then
        String newline EmptyString ::
          match s' with
          | String c' s'' =>
              if decide (c' = newline) then readlines s'' else readlines s'
          | EmptyString => []
          end
      else match readlines s' with
           | [] => [String c EmptyString]
           | l :: ls => String c l :: ls
           end
  end.

(** *** float(s) *)

Definition digit (c : ascii) : option Z :=
  let n := ord c in
  if ((48 <=? n) && (n <=? 57))%N then Some (Z.of_N n - 48)%Z else None.

Definition isdigit (c : ascii) : bool := bool_decide (is_Some (digit c)).

(** Reads a run of digits: the value accumulated on [acc], the number of
    digits read added to [n], and the rest of the string. *)
Fixpoint digits (acc : Z) (n : nat) (s : string) : Z * nat * string :=
  match s with
  | EmptyString => (acc, n, s)
  | String c s' =>
      match digit c with
      | Some d => digits (10 * acc + d) (S n) s'
      | None => (acc, n, s)
      end
  end.

Definition sign (s : string) : bool * string :=
  match s with
  | String "-" s' => (true, s')
  | String "+" s' => (false, s')
  | _ => (false, s)
  end.

(** The exponent part: nothing, or [e] with an optionally signed
    non-empty run of digits up to the end of the string. *)
Definition exponent (s : string) : option Z :=
  match s with
  | EmptyString => Some 0%Z
  | String c s' =>
      if bool_decide (c = "e"%char ∨ c = "E"%char)
      then
        let '(neg, s1) := sign s' in
        match digits 0 0 s1 with
        | (_, O, _) => None
        | (e, _, EmptyString) => Some (if neg : bool then - e else e)%Z
        | _ => None
        end
      else None
  end.

Definition pow10 (e : Z) : Qc :=
  match e with
  | Z0 => 1
  | Zpos p => Q2Qc (inject_Z (10 ^ Zpos p))
  | Zneg p => / Q2Qc (inject_Z (10 ^ Zpos p))
  end.

(** [float(s)] for a string without surrounding blanks: an optional sign,
    digits with an optional point (at least one digit in all), an optional
    exponent.  [None] stands for ValueError.  The spellings of infinity
    and nan, which have no rational value, and digit grouping with
    underscores are not accepted, although Python accepts them:
    [float_covers] below singles out the tokens on which this is Python's
    [float].  The value is the exact decimal, where Python takes the
    nearest binary float. *)
Definition float (s : string) : option Qc :=
  let '(neg, s1) := sign s in
  let '(ip, n1, s2) := digits 0 0 s1 in
  let '(m, n2, s3) :=
    match s2 with
    | String "." s2' => digits ip 0 s2'
    | _ => (ip, O, s2)
    end in
  if decide (n1 + n2 = 0)%nat then None
  else
    e ← exponent s3 ;
    Some (Q2Qc (inject_Z (if neg : bool then - m else m))
          * pow10 (e - Z.of_nat n2)).

(** *** Formatting *)

(** The nearest integer, ties to the even one. *)
Definition round_half_even (x : Qc) : Z :=
  let f := Qfloor x in
  let r := x - Q2Qc (inject_Z f) in
  let half := Q2Qc (1 # 2) in
  if decide (r < half) then f
  else if decide (half < r) then (f + 1)%Z
  else if Z.even f then f else (f + 1)%Z.

(** [round(x, ndigits)], on the exact value: nearest multiple of
    [10^-ndigits], ties to even.  (Python rounds the binary float, which
    decides differently where the decimal written is a tie and the float
    is not, as for 2.675.) *)
Definition round (x : Qc) (ndigits : nat) : Qc :=
  Q2Qc (inject_Z (round_half_even (x * pow10 (Z.of_nat ndigits))))
  * pow10 (- Z.of_nat ndigits).

Definition digit_char (d : Z) : ascii := ascii_of_N (48 + Z.to_N d).

(** The decimal digits of [n >= 0] in front of [acc], at most [fuel] of
    them. *)
Fixpoint decimal_go (fuel : nat) (n : Z) (acc : string) : string :=
  match fuel with
  | O => acc
  | S fuel' =>
      let acc' := String (digit_char (n mod 10)) acc in
      if (n / 10 =? 0)%Z then acc' else decimal_go fuel' (n / 10) acc'
  end.

Definition decimal (n : Z) : string :=
  decimal_go (S (Z.to_nat (Z.log2 n))) n EmptyString.

Fixpoint replicate_char (n : nat) (c : ascii) (s : string) : string :=
  match n with
  | O => s
  | S n' => String c (replicate_char n' c s)
  end.

(** [s.rjust(width, c)] *)
Definition rjust (width : nat) (c : ascii) (s : string) : string :=
  replicate_char (width - String.length s) c s.

(** [format(x, ".<prec>f")] for [prec > 0]: the value rounded to [prec]
    decimals, as its integer part, a point and [prec] decimals, with a
    minus sign whenever [x] is negative. *)
Definition format_f (prec : nat) (x : Qc) : string :=
  let n := Z.abs (round_half_even (x * pow10 (Z.of_nat prec))) in
  let scale := (10 ^ Z.of_nat prec)%Z in
  ((if decide (x < 0) then "-" else "") +:+ decimal (n / scale)
     +:+ "." +:+ rjust prec "0" (decimal (n mod scale)))%string.

(** [format(x, ">W.<prec>f")] and [format(x, "W.<prec>f")]: numbers are
    right-aligned in a field of [width] characters. *)
Definition format_wf (width prec : nat) (x : Qc) : string :=
  rjust width " " (format_f prec x).

Definition is_integer (x : Qc) : bool := bool_decide (Qden (this x) = 1%positive).

(** [str(x)] of a float: the shortest decimal that reads back as [x].  A
    value with at most 17 decimals is written exactly, with at least one
    decimal; any other value is written rounded to 17 decimals.  The
    notation is always positional (Python turns to an exponent for very
    large and very small magnitudes; both read back the same). *)
Definition str (x : Qc) : string :=
  match list_find (λ k, Is_true (is_integer (x * pow10 (Z.of_nat k)))) (seq 1 17) with
  | Some (_, k) => format_f k x
  | None => format_f 17 x
  end.

(** The strings all of whose characters satisfy [P]. *)
Fixpoint all_chars (P : ascii → bool) (s : string) : bool :=
  match s with
  | EmptyString => true
  | String c s' => P c && all_chars P s'
  end.

(** No blank character, as in a token of [split]. *)
Definition blank_free (s : string) : bool :=
  all_chars (λ c, negb (isspace c)) s.

(** *** The tokens on which [float] above is Python's [float]

    Besides the decimal literals, Python's [float] accepts digits grouped
    by underscores and, with an optional sign and in any letter case, the
    spellings [inf], [infinity] and [nan].  On a token without blanks
    that has no underscore and is none of these spellings, [float] above
    raises exactly when Python's does. *)

Definition lower (c : ascii) : ascii :=
  let n := ord c in
  if ((65 <=? n) && (n <=? 90))%N then ascii_of_N (n + 32) else c.

Fixpoint map_chars (f : ascii → ascii) (s : string) : string :=
  match s with
  | EmptyString => EmptyString
  | String c s' => String (f c) (map_chars f s')
  end.

Definition inf_or_nan (tok : string) : bool :=
  let '(_, s) := sign tok in
  bool_decide (map_chars lower s ∈ ["inf"; "infinity"; "nan"]%string).

Definition float_covers (tok : string) : bool :=
  all_chars (λ c, negb (bool_decide (c = "_"%char))) tok && negb (inf_or_nan tok).

End PyStr.

(** ** NumPy arrays *)

Module Np.

(** An array is its shape and its items by index. *)
Record ndarray : Type := mk {
  shape : list nat;
  item : list nat → Z
}.

(** [np.transpose(a)] reverses the axes. *)
Definition transpose (a : ndarray) : ndarray :=
  mk (rev (shape a)) (λ idx, item a (rev idx)).

(** [for x in a]: the sub-arrays along the first axis. *)
Definition iter (a : ndarray) : list ndarray :=
  match shape a with
  | [] => []
  | n :: sh => (λ i, mk sh (λ idx, item a (i :: idx))) <$> seq 0 n
  end.

Fixpoint indices (sh : list nat) : list (list nat) :=
  match sh with
  | [] => [[]]
  | n :: sh' => i ← seq 0 n ; (λ idx, i :: idx) <$> indices sh'
  end.

Definition items (a : ndarray) : list Z := item a <$> indices (shape a).

(** [np.average(a)]: the mean of all items.  (Of an empty array NumPy
    returns nan; here the quotient by zero is 0.) *)
Definition average (a : ndarray) : Qc :=
  Q2Qc (inject_Z (foldr Z.add 0%Z (items a)))
  / Q2Qc (inject_Z (Z.of_nat (length (items a)))).

End Np.

(** The literals of the script. *)
Definition lit_0_1 : Qc := Q2Qc (1 # 10).
Definition lit_25_4 : Qc := Q2Qc (254 # 10).

(** ** class Data *)

Module Data.

Record t : Type := mk {
  plate_resolution : Qc;           (* px/mm *)
  plate_offset : Qc;               (* mm *)
  emission_lines : gmap Qc Qc;     (* {position : intensity}, default 0 *)
  comments : gmap Qc string        (* {position : comment}, default "" *)
}.

Global Instance eq_dec : EqDecision t.
Proof. solve_decision. Defined.

Definition set_plate_resolution (v : Qc) (self : t) : t :=
  mk v (plate_offset self) (emission_lines self) (comments self).
Definition set_plate_offset (v : Qc) (self : t) : t :=
  mk (plate_resolution self) v (emission_lines self) (comments self).
Definition set_emission_lines (v : gmap Qc Qc) (self : t) : t :=
  mk (plate_resolution self) (plate_offset self) v (comments self).
Definition set_comments (v : gmap Qc string) (self : t) : t :=
  mk (plate_resolution self) (plate_offset self) (emission_lines self) v.

Definition __init__ : t :=
  mk (Py.of_Z 2400 / lit_25_4) 0 ∅ ∅.

(** [self.emission_lines[position]] and [self.comments[position]] as
    expressions: reads of a defaultdict. *)
Definition emission_lines_getitem (position : Qc) : Py.M t Qc :=
  λ self, let '(v, d) := Py.dd_getitem 0 position (emission_lines self) in
          (set_emission_lines d self, Py.Ok v).
Definition comments_getitem (position : Qc) : Py.M t string :=
  λ self, let '(v, d) := Py.dd_getitem "" position (comments self) in
          (set_comments d self, Py.Ok v).

Definition emission_lines_delitem (position : Qc) : Py.M t () :=
  λ self, match Py.dd_delitem position (emission_lines self) with
          | Py.Ok d => (set_emission_lines d self, Py.Ok ())
          | Py.Raise e => (self, Py.Raise e)
          end.
Definition comments_delitem (position : Qc) : Py.M t () :=
  λ self, match Py.dd_delitem position (comments self) with
          | Py.Ok d => (set_comments d self, Py.Ok ())
          | Py.Raise e => (self, Py.Raise e)
          end.

Definition add_line (position intensity : Qc) : Py.M t () :=
  Py.modify (λ self,
    set_emission_lines (<[position := intensity]> (emission_lines self)) self).

Definition add_comment (position : Qc) (comment : string) : Py.M t () :=
  Py.modify (λ self,
    set_comments (<[position := comment]> (comments self)) self).

Definition remove_line (position : Qc) : Py.M t () :=
  emission_lines_delitem position ;;
  c ← comments_getitem position ;
  if decide (c ≠ "") then comments_delitem position else mret ().

(** [list(self.emission_lines.keys())]; the order is the map's own. *)
Definition get_positions : Py.M t (list Qc) :=
  λ self, (self, Py.Ok (map_to_list (emission_lines self)).*1).

(** [float(tok)] as a statement. *)
Definition float (tok : string) : Py.M t Qc :=
  match PyStr.float tok with
  | Some x => mret x
  | None => Py.raise Py.ValueError
  end.

Definition save_row (pos : Qc) : Py.M t string :=
  self ← Py.get ;
  q ← Py.truediv pos (plate_resolution self) ;
  i ← emission_lines_getitem pos ;
  c ← comments_getitem pos ;
  mret (" " +:+ PyStr.format_wf 8 4 (q + plate_offset self) +:+ " "
        +:+ " " +:+ PyStr.format_wf 10 3 i +:+ "  "
        +:+ " " +:+ c +:+ String PyStr.newline "")%string.

(** The text written so far is threaded through the loop. *)
Fixpoint save_rows (positions : list Qc) (written : string) : Py.M t string :=
  match positions with
  | [] => mret written
  | pos :: rest =>
      row ← save_row pos ;
      save_rows rest (written +:+ row)%string
  end.

(** [save_lines(name)], the file being opened without error: the result
    is the text written to it.  (A
    store that never had its offset set holds the integer 0, which Python
    prints as 0 and which is printed 0.0 here; both read back as 0.) *)
Definition save_lines : Py.M t string :=
  self ← Py.get ;
  let header :=
    ("Plate Resolution: " +:+ PyStr.str (PyStr.round (plate_resolution self) 3)
       +:+ " px/mm" +:+ String PyStr.newline ""
     +:+ "Plate Offset: " +:+ PyStr.str (plate_offset self)
       +:+ " mm" +:+ String PyStr.newline ""
     +:+ " Position | Intensity | Comments" +:+ String PyStr.newline "")%string in
  positions ← get_positions ;
  save_rows (merge_sort Qcle positions) header.

Definition load_row (line : string) : Py.M t () :=
  self ← Py.get ;
  tok0 ← Py.index (PyStr.split line) 0 ;
  x ← float tok0 ;
  let p := (x - plate_offset self) * plate_resolution self in
  tok1 ← Py.index (PyStr.split line) 1 ;
  i ← float tok1 ;
  c ← Py.try_except (Py.index (PyStr.split line) 2) (mret ""%string) ;
  Py.modify (λ self, set_emission_lines (<[p := i]> (emission_lines self)) self) ;;
  Py.modify (λ self, set_comments (<[p := c]> (comments self)) self).

(** [load_lines(name)]: [file] is the text of the file called [name], or
    [None] when it cannot be opened. *)
Definition load_lines (file : option string) : Py.M t () :=
  Py.modify (set_emission_lines ∅) ;;
  Py.modify (set_comments ∅) ;;
  lines_file ← match file with
               | Some text => mret (PyStr.readlines text)
               | None => Py.raise Py.OSError
               end ;
  line0 ← Py.index lines_file 0 ;
  tok ← Py.index (PyStr.split line0) 2 ;
  r ← float tok ;
  Py.modify (set_plate_resolution r) ;;
  line1 ← Py.index lines_file 1 ;
  tok ← Py.index (PyStr.split line1) 2 ;
  o ← float tok ;
  Py.modify (set_plate_offset o) ;;
  Py.for_ (drop 3 lines_file) load_row.

End Data.

(** ** Python: slices, min and max *)

Module PySeq.

Fixpoint take (n : nat) (s : string) : string :=
  match n, s with
  | S n', String c s' => String c (take n' s')
  | _, _ => EmptyString
  end.

(** [s[:-n]]: all but the last [n] characters, nothing when [s] has no
    more than [n]. *)
Definition but_last (n : nat) (s : string) : string :=
  take (String.length s - n) s.

(** [max(a, b)] and [min(a, b)]: the first argument wins a tie. *)
Definition max (a b : Qc) : Qc := if decide (a < b) then b else a.
Definition min (a b : Qc) : Qc := if decide (b < a) then b else a.

End PySeq.

(** ** class Comparator

    The methods below are those behind the buttons of the lines tab and
    the plate scan.  The record holds the attributes they use; [M],
    [plate_width] and [intensity] exist in the program once a plate has
    been loaded and drawn, which is assumed throughout.

    [add_line], [delete_line] and [load_lines] end with
    [self.redraw(None)].  That call draws on the canvases, reassigns
    [self.M] through [mir_redraw] and can raise; it reads the store and
    never changes it, nor the notification label.  It is left out: the
    definitions below are the methods up to that call, and the statements
    about them concern the store and the label as the method leaves
    them.  The timers that clear the label are left out too. *)

Module Comparator.

Record t : Type := mk {
  data : Data.t;
  M : Qc;                      (* the scan position, in pixels *)
  plate_width : Z;
  intensity : Qc → Qc;         (* the interpolant built by scan_plate *)
  comment_notif : string       (* text of the notification label *)
}.

Definition set_data (v : Data.t) (self : t) : t :=
  mk v (M self) (plate_width self) (intensity self) (comment_notif self).
Definition set_intensity (v : Qc → Qc) (self : t) : t :=
  mk (data self) (M self) (plate_width self) v (comment_notif self).
Definition set_plate_width (v : Z) (self : t) : t :=
  mk (data self) (M self) v (intensity self) (comment_notif self).

(** [self.comment_notif.configure(text=...)] *)
Definition configure (text : string) : Py.M t () :=
  Py.modify (λ self,
    mk (data self) (M self) (plate_width self) (intensity self) text).

(** [self.data.<method>(...)] *)
Definition self_data {A} (c : Py.M Data.t A) : Py.M t A :=
  Py.on_field data set_data c.

(** The test [abs(pos - self.M) < 0.1], on exact numbers with 0.1 as
    1/10.  For two floats this close of which [M] is at least 0.2 the
    subtraction is exact, and no float lies between 1/10 and the float
    written 0.1, so that the test of the program on the floats [pos] and
    [M] is this test on their values.  (What differs on binary floats is
    the value of a sum such as [M + 0.1], which can pass the test.) *)
Definition near (pos M : Qc) : bool :=
  bool_decide (Py.abs (pos - M) < lit_0_1).

(** The local variables of [add_line].  The loop assigns [alread_in],
    a name that is not bound before the loop. *)
Record add_line_locals : Type := mk_locals {
  out_of_bounds : bool;
  already_in : bool;
  alread_in : option bool
}.

Definition add_line_check (M : Qc) (l : add_line_locals) (pos : Qc)
    : add_line_locals :=
  if near pos M
  then mk_locals (out_of_bounds l) (already_in l) (Some true)
  else l.

Definition add_line : Py.M t () :=
  self ← Py.get ;
  let out_of_bounds :=
    negb (bool_decide (0 < M self)
          && bool_decide (M self < Py.of_Z (plate_width self))) in
  positions ← self_data Data.get_positions ;
  let l := foldl (add_line_check (M self))
                 (mk_locals out_of_bounds false None) positions in
  (if negb (already_in l) && negb (Comparator.out_of_bounds l)
   then
     self_data (Data.add_line (M self) (intensity self (M self))) ;;
     configure "Line added."
   else
     (if already_in l then configure "Error: Line already added." else mret ()) ;;
     (if Comparator.out_of_bounds l then configure "Error: Line out of bounds." else mret ())).

(** [text] is [str(self.comment_entry.get())]. *)
Definition add_comment_body (M : Qc) (text : string) (pos : Qc)
    : Py.M (t * bool) () :=
  if near pos M
  then
    Py.on_field fst (λ c s, (c, s.2))
      (self_data (Data.add_comment pos text)) ;;
    Py.modify (λ s, (s.1, true))
  else mret ().

(** Runs a loop whose body also updates a local flag (the variable
    [line] of [add_comment] and [delete_line]). *)
Definition with_local {A} (c : Py.M (t * bool) A) (init : bool)
    : Py.M t (A * bool) :=
  λ self, match c (self, init) with
          | ((self', b), Py.Ok a) => (self', Py.Ok (a, b))
          | ((self', _), Py.Raise e) => (self', Py.Raise e)
          end.

Definition add_comment (text : string) : Py.M t () :=
  self ← Py.get ;
  positions ← self_data Data.get_positions ;
  r ← with_local (Py.for_ positions (add_comment_body (M self) text)) false ;
  if r.2 : bool
  then configure "Comment added."
  else configure "Error: Line not found.
Comment not added.".

Definition delete_line_body (M : Qc) (pos : Qc) : Py.M (t * bool) () :=
  if near pos M
  then
    Py.on_field fst (λ c s, (c, s.2))
      (self_data (Data.remove_line pos)) ;;
    Py.modify (λ s, (s.1, true))
  else mret ().

Definition delete_line : Py.M t () :=
  self ← Py.get ;
  positions ← self_data Data.get_positions ;
  r ← with_local (Py.for_ positions (delete_line_body (M self))) false ;
  if r.2 : bool
  then configure "Line deleted."
  else configure "Error: No line to delete.".

(** [load_plate]: [plate_file] is the array of the image in the file, or
    [None] when [Image.open] fails.  The array of an image of size (W, H)
    has shape (H, W) or (H, W, bands).  The statements after the
    assignment of the width (the resize to a height of 125 px and the Tk
    calls) are not modelled: [display] is their outcome. *)
Definition load_plate (plate_file : option Np.ndarray) (display : Py.result ())
    : Py.M t () :=
  img ← match plate_file with
        | Some img => mret img
        | None => Py.raise Py.OSError
        end ;
  Py.modify (set_plate_width (Z.of_nat (default 0%nat (Np.shape img !! 1%nat)))) ;;
  match display with
  | Py.Ok _ => mret ()
  | Py.Raise e => Py.raise e
  end.

(** The list [intensity] at the end of the loop of [scan_plate]. *)
Definition scan_plate_intensity (img : Np.ndarray) : list Qc :=
  let plate_array := Np.transpose img in
  (λ column, Py.of_Z 256 - Np.average column) <$> Np.iter plate_array.

(** [range(n)] as abscissas. *)
Definition range (n : Z) : list Qc :=
  (λ i, Py.of_Z (Z.of_nat i)) <$> seq 0 (Z.to_nat n).

Section scan.
(** [scipy.interpolate.interp1d(x, y, kind='cubic',
    fill_value='extrapolate')]: the interpolant, or the exception it
    raises. *)
Variable interp1d : list Qc → list Qc → Py.result (Qc → Qc).

(** [plate_file] is the array of the image in the file, or [None] when
    the file cannot be opened as an image. *)
Definition scan_plate (plate_file : option Np.ndarray) : Py.M t () :=
  img ← match plate_file with
        | Some img => mret img
        | None => Py.raise Py.OSError
        end ;
  let intensity := scan_plate_intensity img in
  self ← Py.get ;
  match interp1d (range (plate_width self)) intensity with
  | Py.Ok f => Py.modify (set_intensity f)
  | Py.Raise e => Py.raise e
  end.

(** [get_plate_file], after the file dialog.  The assignment of
    [self.file], which comes first, is not modelled: the record has no
    field for the name of the file. *)
Definition get_plate_file (file : option Np.ndarray) (display : Py.result ())
    : Py.M t () :=
  load_plate file display ;;
  scan_plate file.
End scan.

Definition set_M (v : Qc) (self : t) : t :=
  mk (data self) v (plate_width self) (intensity self) (comment_notif self).

(** [float(text)] in a method of the window. *)
Definition float (text : string) : Py.M t Qc :=
  match PyStr.float text with
  | Some x => mret x
  | None => Py.raise Py.ValueError
  end.

(** [set_dpi]: [text] is [self.dpi_entry.get()]. *)
Definition set_dpi (text : string) : Py.M t () :=
  dpi ← float text ;
  r ← Py.truediv dpi lit_25_4 ;
  self_data (Py.modify (Data.set_plate_resolution r)) ;;
  configure "DPI recorded.".

(** [set_offset]: [text] is [self.offset_entry.get()]. *)
Definition set_offset (text : string) : Py.M t () :=
  o ← float text ;
  self_data (Py.modify (Data.set_plate_offset o)) ;;
  configure "Offset recorded.".

(** [self.file[:-4] + "_lines.dat"] *)
Definition lines_file_name (file : string) : string :=
  PySeq.but_last 4 file +:+ "_lines.dat".

(** [save_lines]: [file] is [self.file], the name of the plate image; the
    result is the name of the file written and the text written to it. *)
Definition save_lines (file : string) : Py.M t (string * string) :=
  let name := lines_file_name file in
  text ← self_data Data.save_lines ;
  configure "Lines saved. You may now safely exit." ;;
  mret (name, text).

(** [load_lines]: [file] is the text of the file chosen in the dialog, or
    [None] when it cannot be opened.  (The update of the offset entry and
    the redrawing are left out.) *)
Definition load_lines (file : option string) : Py.M t () :=
  self_data (Data.load_lines file) ;;
  configure "Lines loaded.
Click plate to refresh.".

(** The computation of [self.mouse_offset] in [redraw], for a click on
    the plate canvas or the scroll bar: [x] is [event.x] and [width] is
    [self.plate_canvas.winfo_width()]. *)
Definition mouse_offset (x width : Z) : Py.M t Qc :=
  q ← Py.truediv (Py.of_Z x) (Py.of_Z width) ;
  mret (PySeq.min (PySeq.max q 0) 1).

(** A bound of the window shown, [min(max(i*self.plate_width,0),
    self.plate_width)], for a fraction [i] given by the scroll bar. *)
Definition window_bound (plate_width : Z) (i : Qc) : Qc :=
  PySeq.min (PySeq.max (i * Py.of_Z plate_width) 0) (Py.of_Z plate_width).

(** [mir_redraw], as far as the bounds of the zoomed section: [self.M] is
    assigned first, then come the half-width [W] and the bounds [ML] and
    [MR], which are the result here.  [zoom] is [self.zoom.get()]; the
    plotting that follows is left out. *)
Definition mir_redraw (Left Mid Right : Qc) (zoom : Z) : Py.M t (Qc * Qc) :=
  let '(L, R) := (Left, Right) in
  Py.modify (set_M Mid) ;;
  self ← Py.get ;
  W ← Py.truediv (R - L) (Py.of_Z zoom) ;
  mret (PyStr.round (M self - W) 2, PyStr.round (M self + W) 2).

End Comparator.

(** ** The file format in the words of its description

    These definitions do not come from the code: they say what a header
    line and a data row denote, and are compared with [Data.load_lines]
    below. *)

Module Format.

(** The third blank-separated token of a header line, as a number. *)
Definition header_value (line : option string) : option Qc :=
  l ← line ; tok ← PyStr.split l !! 2%nat ; PyStr.float tok.

(** A data row: physical position, intensity, and a comment that is
    empty when the row has no third token. *)
Definition row_fields (line : string) : option (Qc * Qc * string) :=
  match PyStr.split line with
  | tok0 :: tok1 :: rest =>
      x ← PyStr.float tok0 ; i ← PyStr.float tok1 ;
      Some (x, i, default ""%string (head rest))
  | _ => None
  end.

(** The rows read before the first malformed one. *)
Fixpoint parsed_prefix (rows : list string) : list (Qc * Qc * string) :=
  match rows with
  | [] => []
  | line :: rows' =>
      match row_fields line with
      | Some e => e :: parsed_prefix rows'
      | None => []
      end
  end.

Definition pixel_position (resolution offset physical : Qc) : Qc :=
  (physical - offset) * resolution.


Definition lines_of (resolution offset : Qc) (entries : list (Qc * Qc * string))
    : gmap Qc Qc :=
  foldl (λ m e, <[pixel_position resolution offset e.1.1 := e.1.2]> m) ∅ entries.

Definition comments_of (resolution offset : Qc) (entries : list (Qc * Qc * string))
    : gmap Qc string :=
  foldl (λ m e, <[pixel_position resolution offset e.1.1 := e.2]> m) ∅ entries.

(** The three header lines and a data row, as the format lays them out:
    the resolution with 3 decimals, the offset, the column titles; the
    physical position in a field of 8 with 4 decimals, the intensity in a
    field of 10 with 3 decimals, the comment. *)
Definition header (resolution offset : Qc) : string :=
  "Plate Resolution: " +:+ PyStr.str (PyStr.round resolution 3)
    +:+ " px/mm" +:+ String PyStr.newline ""
  +:+ "Plate Offset: " +:+ PyStr.str offset
    +:+ " mm" +:+ String PyStr.newline ""
  +:+ " Position | Intensity | Comments" +:+ String PyStr.newline "".

Definition row (physical intensity : Qc) (comment : string) : string :=
  " " +:+ PyStr.format_wf 8 4 physical +:+ " "
  +:+ " " +:+ PyStr.format_wf 10 3 intensity +:+ "  "
  +:+ " " +:+ comment +:+ String PyStr.newline "".

(** The tokens of a file that [load] may hand to [float] (the third
    token of the two header lines, the first two tokens of each row) are
    tokens on which the [float] of this development is Python's. *)
Definition covered_at (i : nat) (line : string) : bool :=
  match PyStr.split line !! i with
  | Some tok => PyStr.float_covers tok
  | None => true
  end.

Definition numbers_covered (file : option string) : bool :=
  match file with
  | None => true
  | Some text =>
      let lines_file := PyStr.readlines text in
      forallb (covered_at 2) (take 2 lines_file)
      && forallb (λ line, covered_at 0 line && covered_at 1 line) (drop 3 lines_file)
  end.

(** What [load] leaves in the store, and whether it succeeds: the lines
    and comments are those of the rows read before the first malformed one,
    none at all when the file cannot be read or a header line is
    malformed; each calibration scalar is the one of the header once its
    line has been read, and the one of the store before the call
    otherwise. *)
Definition load_outcome (file : option string) (self : Data.t) : Data.t * bool :=
  match file with
  | None =>
      (Data.mk (Data.plate_resolution self) (Data.plate_offset self) ∅ ∅, false)
  | Some text =>
      let lines_file := PyStr.readlines text in
      match header_value (lines_file !! 0%nat) with
      | None =>
          (Data.mk (Data.plate_resolution self) (Data.plate_offset self) ∅ ∅, false)
      | Some r =>
          match header_value (lines_file !! 1%nat) with
          | None => (Data.mk r (Data.plate_offset self) ∅ ∅, false)
          | Some o =>
              let rows := drop 3 lines_file in
              (Data.mk r o (lines_of r o (parsed_prefix rows))
                       (comments_of r o (parsed_prefix rows)),
               bool_decide (length (parsed_prefix rows) = length rows))
          end
      end
  end.







End Format.

(** * Properties *)

Ltac by_compute := apply (bool_decide_unpack _); vm_compute; exact I.

Ltac run :=
  repeat (progress (unfold mbind, mret, M_bind, M_ret, Py.bind, Py.ret,
                    Py.modify, Py.get, Py.raise, Py.on_field; simpl)).

(** Linear arithmetic on canonical rationals, through [Q]. *)
Ltac qc_unfold :=
  unfold Qcle, Qclt, Qcminus, Qcplus, Qcopp, Qcmult in *;
  cbn [this Q2Qc] in *;
  rewrite ?Qred_correct in *.

Ltac qc_lra := qc_unfold; lra.

(** ** add_line *)

Section add_line.
Import Comparator.

Lemma add_line_check_flags (m : Qc) (positions : list Qc) (l : add_line_locals) :
  already_in (foldl (add_line_check m) l positions) = already_in l
  ∧ out_of_bounds (foldl (add_line_check m) l positions) = out_of_bounds l.
Proof.
  revert l. induction positions as [|pos positions IH]; intros l; simpl; [done|].
  destruct (IH (add_line_check m l pos)) as [-> ->].
  unfold add_line_check. by destruct (near pos m).
Qed.

Lemma add_line_in_bounds (self : t) :
  0 < M self → M self < Py.of_Z (plate_width self) →
  add_line self =
    (mk (Data.set_emission_lines
           (<[M self := intensity self (M self)]> (Data.emission_lines (data self)))
           (data self))
        (M self) (plate_width self) (intensity self) "Line added.",
     Py.Ok ()).
Proof.
  intros H0 Hw. unfold add_line, self_data, Data.get_positions, configure,
    Data.add_line. run.
  destruct (add_line_check_flags (M self)
    (map_to_list (Data.emission_lines (data self))).*1
    (mk_locals
       (negb (bool_decide (0 < M self)
              && bool_decide (M self < Py.of_Z (plate_width self))))
       false None)) as [-> ->]. simpl.
  rewrite !bool_decide_eq_true_2 by done. simpl. run.
  by destruct self as [[] ? ? ? ?].
Qed.
End add_line.

(** C1.  The duplicate check of [add_line] does not guard the insertion:
    for every store and every in-bounds scan position, [add_line] stores
    the scan position as a key; hence, when the scan position is not yet a
    key, the store gains a position, however close to a stored one it is. *)
Theorem add_line_inserts_despite_near (self : Comparator.t) :
  0 < Comparator.M self →
  Comparator.M self < Py.of_Z (Comparator.plate_width self) →
  let lines := Data.emission_lines (Comparator.data self) in
  let lines' := Data.emission_lines (Comparator.data (Comparator.add_line self).1) in
  lines' = <[Comparator.M self := Comparator.intensity self (Comparator.M self)]> lines
  ∧ (Comparator.M self ∉ dom lines → size (dom lines') = S (size (dom lines))).
Proof.
  intros H0 Hw lines lines'. subst lines'.
  rewrite add_line_in_bounds by done. simpl. split; [done|].
  intros Hfresh. rewrite dom_insert_L, size_union, size_singleton; [done|].
  set_solver.
Qed.

(** The failing input of C1: a line at 50, the scan line at 50.05. *)
Lemma add_line_inserts_despite_near_witness :
  let self := Comparator.mk
    (Data.mk (Py.of_Z 100) 0 {[Py.of_Z 50 := Py.of_Z 128]} ∅)
    (Q2Qc (5005 # 100)) 100 (λ _, Py.of_Z 120) "" in
  Comparator.near (Py.of_Z 50) (Comparator.M self) = true
  ∧ dom (Data.emission_lines (Comparator.data (Comparator.add_line self).1))
    = {[Py.of_Z 50; Q2Qc (5005 # 100)]}
  ∧ size (dom (Data.emission_lines (Comparator.data (Comparator.add_line self).1))) = 2%nat.
Proof.
  intros self.
  destruct (add_line_inserts_despite_near self) as [Hl Hs];
    [by_compute | by_compute |].
  split; [by_compute|]. split.
  - rewrite Hl. by_compute.
  - rewrite Hs; [by_compute|]. by_compute.
Defined.

(** ** remove_line and delete_line *)

Section remove_line.
Import Data.

Lemma remove_line_present (self : t) (position i : Qc) :
  emission_lines self !! position = Some i →
  remove_line position self =
    (mk (plate_resolution self) (plate_offset self)
        (delete position (emission_lines self))
        (if decide (default ""%string (comments self !! position) = ""%string)
         then <[position := ""%string]> (comments self)
         else delete position (comments self)),
     Py.Ok ()).
Proof.
  intros Hi. unfold remove_line, emission_lines_delitem, comments_getitem,
    comments_delitem, Py.dd_delitem, Py.dd_getitem. run.
  rewrite Hi. simpl.
  destruct (comments self !! position) as [c|] eqn:Hc; simpl.
  - destruct (decide (c = ""%string)) as [->|Hne].
    + run. by rewrite insert_id.
    + rewrite decide_True by done. simpl. by rewrite Hc.
  - done.
Qed.

Lemma remove_line_missing (self : t) (position : Qc) :
  emission_lines self !! position = None →
  remove_line position self = (self, Py.Raise Py.KeyError).
Proof.
  intros Hi. unfold remove_line, emission_lines_delitem, Py.dd_delitem. run.
  by rewrite Hi.
Qed.
End remove_line.

(** C10.  Reading a missing key of the line or comment store inserts the
    key with the default value (0, the empty string); and for every stored
    position whose comment is empty or absent, [remove_line] deletes the
    line but leaves an entry with the empty string for that position in the
    comment store. *)
Theorem remove_line_leaves_empty_comment (self : Data.t) (position i : Qc) :
  Data.emission_lines self !! position = Some i →
  default ""%string (Data.comments self !! position) = ""%string →
  (∀ k, Data.comments self !! k = None →
     Data.comments_getitem k self
     = (Data.set_comments (<[k := ""%string]> (Data.comments self)) self, Py.Ok ""%string))
  ∧ (∀ k, Data.emission_lines self !! k = None →
     Data.emission_lines_getitem k self
     = (Data.set_emission_lines (<[k := 0]> (Data.emission_lines self)) self, Py.Ok 0))
  ∧ (Data.remove_line position self).2 = Py.Ok ()
  ∧ Data.emission_lines (Data.remove_line position self).1 !! position = None
  ∧ Data.comments (Data.remove_line position self).1 !! position = Some ""%string.
Proof.
  intros Hi Hc. split; [|split].
  - intros k Hk. unfold Data.comments_getitem, Py.dd_getitem. by rewrite Hk.
  - intros k Hk. unfold Data.emission_lines_getitem, Py.dd_getitem. by rewrite Hk.
  - rewrite (remove_line_present _ _ _ Hi). simpl.
    rewrite decide_True by done.
    by rewrite lookup_delete_eq, lookup_insert_eq.
Qed.

(** A line at 50 without any comment entry: after [remove_line] the
    comment store has the key 50. *)
Lemma remove_line_leaves_empty_comment_witness :
  let self := Data.mk (Py.of_Z 100) 0 {[Py.of_Z 50 := Py.of_Z 128]} ∅ in
  Data.comments self !! Py.of_Z 50 = None
  ∧ Data.comments (Data.remove_line (Py.of_Z 50) self).1 !! Py.of_Z 50 = Some ""%string.
Proof.
  intros self. split; [done|].
  apply (remove_line_leaves_empty_comment self (Py.of_Z 50) (Py.of_Z 128));
    by_compute.
Defined.

(** Case analysis on the membership tests of the loop invariants. *)
Ltac near_cases :=
  repeat case_decide; try done;
  exfalso;
  repeat match goal with
         | H : _ ∧ _ |- _ => destruct H
         | H : ¬ (_ ∧ _) |- _ => apply H; split; try done
         | H : _ ∈ _ :: _ |- _ => apply elem_of_cons in H as [->|H]
         end;
  try congruence; try done; set_solver.

Section delete_line.
Import Comparator.

Lemma delete_line_body_far (m pos : Qc) (s : t * bool) :
  near pos m = false → delete_line_body m pos s = (s, Py.Ok ()).
Proof. intros H. unfold delete_line_body. by rewrite H. Qed.

Lemma delete_line_body_near (m pos i : Qc) (self : t) (b : bool) :
  near pos m = true →
  Data.emission_lines (data self) !! pos = Some i →
  delete_line_body m pos (self, b) =
    ((set_data (Data.remove_line pos (data self)).1 self, true), Py.Ok ()).
Proof.
  intros H Hi. unfold delete_line_body, self_data. rewrite H. run.
  by rewrite (remove_line_present _ _ _ Hi).
Qed.

(** The loop of [delete_line] over any duplicate-free list of stored
    positions. *)
Lemma delete_line_loop (m : Qc) (ks : list Qc) (self : t) (b : bool) :
  NoDup ks →
  (∀ k, k ∈ ks → is_Some (Data.emission_lines (data self) !! k)) →
  ∃ d' : Data.t,
    Py.for_ ks (delete_line_body m) (self, b)
    = ((set_data d' self, b || existsb (λ k, near k m) ks), Py.Ok ())
    ∧ Data.plate_resolution d' = Data.plate_resolution (data self)
    ∧ Data.plate_offset d' = Data.plate_offset (data self)
    ∧ (∀ q, Data.emission_lines d' !! q
            = if decide (q ∈ ks ∧ near q m = true) then None
              else Data.emission_lines (data self) !! q)
    ∧ (∀ q, Data.comments d' !! q
            = if decide (q ∈ ks ∧ near q m = true)
              then (if decide (default ""%string (Data.comments (data self) !! q) = ""%string)
                    then Some ""%string else None)
              else Data.comments (data self) !! q).
Proof.
  revert self b. induction ks as [|k ks IH]; intros self b Hnd Hin.
  - exists (data self). simpl. unfold Py.ret. rewrite orb_false_r.
    split; [by destruct self|]. repeat split; intros q;
      rewrite decide_False; try done; set_solver.
  - apply list.NoDup_cons in Hnd as [Hk Hnd]. simpl. unfold Py.bind.
    destruct (near k m) eqn:Hnear.
    + destruct (Hin k) as [i Hi]; [set_solver|].
      rewrite (delete_line_body_near _ _ _ _ _ Hnear Hi).
      rewrite (remove_line_present _ _ _ Hi). simpl.
      set (d1 := Data.mk _ _ _ _).
      destruct (IH (set_data d1 self) true Hnd) as (d' & Hrun & Hr & Ho & Hl & Hc).
      { intros k' Hk'. simpl. rewrite lookup_delete_ne by set_solver.
        apply Hin. set_solver. }
      exists d'. rewrite Hrun. simpl. rewrite orb_true_r.
      split; [by destruct self|]. split; [done|]. split; [done|].
      split; intros q.
      * rewrite Hl. simpl. destruct (decide (q = k)) as [->|Hne].
        -- rewrite lookup_delete_eq. near_cases.
        -- rewrite lookup_delete_ne by done. near_cases.
      * rewrite Hc. simpl. destruct (decide (q = k)) as [->|Hne].
        -- destruct (decide (default ""%string (Data.comments (data self) !! k) = ""%string));
             [rewrite lookup_insert_eq|rewrite lookup_delete_eq]; near_cases.
        -- destruct (decide (default ""%string (Data.comments (data self) !! k) = ""%string));
             [rewrite lookup_insert_ne by done|rewrite lookup_delete_ne by done];
             near_cases.
    + rewrite delete_line_body_far by done.
      destruct (IH self b Hnd) as (d' & Hrun & Hr & Ho & Hl & Hc).
      { intros k' Hk'. apply Hin. set_solver. }
      exists d'. rewrite Hrun. simpl. split; [done|]. split; [done|]. split; [done|].
      split; intros q; [rewrite Hl|rewrite Hc]; near_cases.
Qed.
End delete_line.

Lemma elem_of_positions {V} (d : gmap Qc V) (k : Qc) :
  k ∈ (map_to_list d).*1 ↔ is_Some (d !! k).
Proof.
  rewrite list_elem_of_fmap. split.
  - intros [[k' v] [-> Hkv]]. apply elem_of_map_to_list in Hkv. by exists v.
  - intros [v Hv]. exists (k, v). split; [done|]. by apply elem_of_map_to_list.
Qed.

(** What [delete_line] does to the store, entry by entry. *)
Lemma delete_line_spec (self : Comparator.t) :
  let m := Comparator.M self in
  let d := Comparator.data self in
  ∃ d' : Data.t,
    Comparator.delete_line self
    = (Comparator.mk d' m (Comparator.plate_width self) (Comparator.intensity self)
         (if existsb (λ k, Comparator.near k m) (map_to_list (Data.emission_lines d)).*1
          then "Line deleted." else "Error: No line to delete.")%string,
       Py.Ok ())
    ∧ Data.plate_resolution d' = Data.plate_resolution d
    ∧ Data.plate_offset d' = Data.plate_offset d
    ∧ (∀ q, Data.emission_lines d' !! q
            = if decide (is_Some (Data.emission_lines d !! q) ∧ Comparator.near q m = true)
              then None else Data.emission_lines d !! q)
    ∧ (∀ q, Data.comments d' !! q
            = if decide (is_Some (Data.emission_lines d !! q) ∧ Comparator.near q m = true)
              then (if decide (default ""%string (Data.comments d !! q) = ""%string)
                    then Some ""%string else None)
              else Data.comments d !! q).
Proof.
  destruct self as [d m w f n]. simpl.
  destruct (delete_line_loop m (map_to_list (Data.emission_lines d)).*1
              (Comparator.mk d m w f n) false)
    as (d' & Hrun & Hr & Ho & Hl & Hc).
  { apply NoDup_fst_map_to_list. }
  { intros k. apply elem_of_positions. }
  simpl in *. exists d'. split; [|split; [done|split; [done|split]]].
  - unfold Comparator.delete_line, Comparator.self_data, Data.get_positions,
      Comparator.with_local, Comparator.configure. run.
    unfold Comparator.set_data. simpl. rewrite Hrun. simpl.
    by destruct (existsb _ _).
  - intros q. rewrite Hl. repeat case_decide; try done;
      rewrite elem_of_positions in *; tauto.
  - intros q. rewrite Hc. repeat case_decide; try done;
      rewrite elem_of_positions in *; tauto.
Qed.

(** C5, as the code has it.  [delete_line] removes every stored entry
    that passes the test [abs(pos - self.M) < 0.1], not just the first,
    and keeps the others.  A removed entry that had a non-empty comment
    keeps no comment entry; a removed entry whose comment was empty or
    absent ends with a comment entry holding the empty string.  The
    comments of the other positions are untouched.  When no stored
    position passes the test the store is unchanged and the message is
    "Error: No line to delete.".  (The statement is about the store and
    the message as the method leaves them before its final redraw.) *)
Theorem delete_line_removes_all_near (self : Comparator.t) :
  let p := Comparator.M self in
  let lines := Data.emission_lines (Comparator.data self) in
  let comments := Data.comments (Comparator.data self) in
  let self' := (Comparator.delete_line self).1 in
  let lines' := Data.emission_lines (Comparator.data self') in
  let comments' := Data.comments (Comparator.data self') in
  lines' = filter (λ kv, Comparator.near kv.1 p = false) lines
  ∧ (∀ q, is_Some (lines !! q) → Comparator.near q p = true →
       lines' !! q = None
       ∧ comments' !! q
         = if decide (default ""%string (comments !! q) = ""%string)
           then Some ""%string else None)
  ∧ (∀ q, ¬ (is_Some (lines !! q) ∧ Comparator.near q p = true) →
       comments' !! q = comments !! q)
  ∧ ((∀ q, is_Some (lines !! q) → Comparator.near q p = false) →
       Comparator.data self' = Comparator.data self
       ∧ Comparator.comment_notif self' = "Error: No line to delete.").
Proof.
  intros p lines comments self' lines' comments'.
  destruct (delete_line_spec self) as (d' & Hrun & Hr & Ho & Hl & Hc).
  subst self' lines' comments'. rewrite Hrun. simpl.
  fold p lines comments in Hl, Hc.
  split; [|split; [|split]].
  - apply map_eq. intros q. rewrite Hl, map_lookup_filter.
    destruct (lines !! q) as [i|] eqn:Hq; simpl.
    + destruct (Comparator.near q p) eqn:Hn.
      * rewrite decide_True by (split; [by eexists|done]).
        by rewrite option_guard_False.
      * rewrite decide_False by (by intros [_ ?]).
        by rewrite option_guard_True.
    + done.
  - intros q Hq Hn. by rewrite Hl, Hc, !decide_True by done.
  - intros q Hq. by rewrite Hc, decide_False.
  - intros Hfar. split.
    + assert (Data.emission_lines d' = lines) as Hl'.
      { apply map_eq. intros q. rewrite Hl, decide_False; [done|].
        intros [Hq Hn]. specialize (Hfar q Hq). congruence. }
      assert (Data.comments d' = comments) as Hc'.
      { apply map_eq. intros q. rewrite Hc, decide_False; [done|].
        intros [Hq Hn]. specialize (Hfar q Hq). congruence. }
      subst lines comments. destruct d', (Comparator.data self); simpl in *.
      by subst.
    + destruct (existsb _ _) eqn:Hex; [|done]. exfalso.
      apply existsb_exists in Hex as (k & Hk & Hn).
      apply list_elem_of_In, elem_of_positions in Hk.
      specialize (Hfar k Hk). fold p in Hn. congruence.
Qed.

(** The claim C5 fails on comments that are empty or absent.  Two lines
    within 0.1 px of the scan position, at 50 px with the empty comment
    and at 50.05 px with none: both lines are removed, and each of the two
    positions has a comment entry afterwards. *)
Lemma delete_line_leaves_comment_entries :
  let self := Comparator.mk
    (Data.mk (Py.of_Z 100) 0
       {[Py.of_Z 50 := Py.of_Z 128; Q2Qc (5005 # 100) := Py.of_Z 3]}
       {[Py.of_Z 50 := ""%string]})
    (Py.of_Z 50) 100 (λ _, Py.of_Z 120) "" in
  let d' := Comparator.data (Comparator.delete_line self).1 in
  Data.emission_lines d' = ∅
  ∧ Data.comments d' !! Py.of_Z 50 = Some ""%string
  ∧ Data.comments d' !! Q2Qc (5005 # 100) = Some ""%string
  ∧ Data.comments d' ≠ ∅.
Proof.
  intros self d'. split; [by_compute|]. split; [by_compute|]. split; [by_compute|].
  intros H. apply (f_equal (λ m : gmap Qc string, m !! Py.of_Z 50)) in H.
  revert H. by_compute.
Qed.

(** ** add_comment *)

Section add_comment.
Import Comparator.

Lemma add_comment_loop (m : Qc) (text : string) (ks : list Qc) (self : t) (b : bool) :
  ∃ c' : gmap Qc string,
    Py.for_ ks (add_comment_body m text) (self, b)
    = ((set_data (Data.set_comments c' (data self)) self,
        b || existsb (λ k, near k m) ks), Py.Ok ())
    ∧ (∀ q, c' !! q = if decide (q ∈ ks ∧ near q m = true) then Some text
                      else Data.comments (data self) !! q).
Proof.
  revert self b. induction ks as [|k ks IH]; intros self b.
  - exists (Data.comments (data self)). simpl. unfold Py.ret.
    rewrite orb_false_r. split; [by destruct self as [[] ? ? ? ?]|].
    intros q. near_cases.
  - simpl. unfold Py.bind, add_comment_body at 1.
    destruct (near k m) eqn:Hnear.
    + unfold self_data, Data.add_comment. run.
      destruct (IH (set_data (Data.set_comments
                  (<[k:=text]> (Data.comments (data self))) (data self)) self) true)
        as (c' & Hrun & Hc).
      exists c'. rewrite Hrun. simpl. rewrite orb_true_r.
      split; [by destruct self as [[] ? ? ? ?]|].
      intros q. rewrite Hc. simpl. destruct (decide (q = k)) as [->|Hne].
      * rewrite lookup_insert_eq. near_cases.
      * rewrite lookup_insert_ne by done. near_cases.
    + run. destruct (IH self b) as (c' & Hrun & Hc).
      exists c'. rewrite Hrun. split; [done|].
      intros q. rewrite Hc. near_cases.
Qed.

(** What [Comparator.add_comment] does to the store. *)
Lemma add_comment_spec (text : string) (self : t) :
  ∃ c' : gmap Qc string,
    add_comment text self
    = (mk (Data.set_comments c' (data self)) (M self) (plate_width self)
          (intensity self)
          (if existsb (λ k, near k (M self))
                (map_to_list (Data.emission_lines (data self))).*1
           then "Comment added."
           else "Error: Line not found.
Comment not added.")%string,
       Py.Ok ())
    ∧ (∀ q, c' !! q
            = if decide (is_Some (Data.emission_lines (data self) !! q)
                         ∧ near q (M self) = true)
              then Some text else Data.comments (data self) !! q).
Proof.
  destruct self as [d m w f n]. simpl.
  destruct (add_comment_loop m text (map_to_list (Data.emission_lines d)).*1
              (mk d m w f n) false)
    as (c' & Hrun & Hc).
  simpl in *. exists c'. split.
  - unfold add_comment, self_data, Data.get_positions, with_local, configure.
    run. unfold set_data. simpl. rewrite Hrun. simpl. by destruct (existsb _ _).
  - intros q. rewrite Hc. repeat case_decide; try done;
      rewrite elem_of_positions in *; tauto.
Qed.
End add_comment.

(** C6, as the code has it.  [Data.add_comment] never fails: it sets the
    comment of the exact key, whether or not a line is stored there.  The
    existence check is made by [Comparator.add_comment], which never raises
    either: it leaves the lines alone and writes the text at every stored
    position within 0.1 of the scan position and nowhere else.  When there
    is such a position it shows "Comment added."; when there is none it
    leaves the store as it is and shows the two lines "Error: Line not
    found." and "Comment not added.". *)
Theorem add_comment_never_fails (text : string) :
  (∀ (self : Data.t) (position : Qc),
     Data.add_comment position text self
     = (Data.set_comments (<[position := text]> (Data.comments self)) self, Py.Ok ()))
  ∧ (∀ self : Comparator.t,
       let d := Comparator.data self in
       let self' := (Comparator.add_comment text self).1 in
       let d' := Comparator.data self' in
       (Comparator.add_comment text self).2 = Py.Ok ()
       ∧ Data.emission_lines d' = Data.emission_lines d
       ∧ (∀ q, Data.comments d' !! q
               = if decide (is_Some (Data.emission_lines d !! q)
                            ∧ Comparator.near q (Comparator.M self) = true)
                 then Some text else Data.comments d !! q)
       ∧ ((∃ q, is_Some (Data.emission_lines d !! q)
                ∧ Comparator.near q (Comparator.M self) = true) →
          Comparator.comment_notif self' = "Comment added.")
       ∧ ((∀ q, is_Some (Data.emission_lines d !! q) →
                Comparator.near q (Comparator.M self) = false) →
          d' = d
          ∧ Comparator.comment_notif self'
            = "Error: Line not found." +:+ String PyStr.newline "Comment not added.")).
Proof.
  split; [done|]. intros self d self' d'.
  destruct (add_comment_spec text self) as (c' & Hrun & Hc).
  subst d' self'. rewrite Hrun. simpl. fold d in Hc |- *.
  split; [done|]. split; [done|]. split; [done|]. split.
  - intros (q & Hq & Hn).
    destruct (existsb _ _) eqn:Hex; [done|]. exfalso.
    apply not_true_iff_false in Hex. apply Hex, existsb_exists.
    exists q. split; [|done]. by apply list_elem_of_In, elem_of_positions.
  - intros Hfar. split.
    + assert (c' = Data.comments d) as ->.
      { apply map_eq. intros q. rewrite Hc, decide_False; [done|].
        intros [Hq Hn]. specialize (Hfar q Hq). congruence. }
      by destruct d.
    + destruct (existsb _ _) eqn:Hex; [|done]. exfalso.
      apply existsb_exists in Hex as (k & Hk & Hn).
      apply list_elem_of_In, elem_of_positions in Hk.
      specialize (Hfar k Hk). congruence.
Qed.

(** The claim C6 fails on an empty store: the comment is inserted and no
    exception is raised. *)
Lemma add_comment_missing_key_inserts :
  let self := Data.__init__ in
  Data.emission_lines self !! Py.of_Z 1 = None
  ∧ (Data.add_comment (Py.of_Z 1) "x" self).2 = Py.Ok ()
  ∧ Data.comments (Data.add_comment (Py.of_Z 1) "x" self).1 !! Py.of_Z 1 = Some "x"%string
  ∧ (Data.add_comment (Py.of_Z 1) "x" self).1 ≠ self.
Proof.
  intros self. split; [done|]. split; [done|]. split; [by_compute|].
  intros H. apply (f_equal (λ d, Data.comments d !! Py.of_Z 1)) in H.
  revert H. by_compute.
Qed.

(** ** load_lines *)

Section load_lines.
Import Data.

Lemma load_row_ok (line : string) (x i : Qc) (c : string) (self : t) :
  Format.row_fields line = Some (x, i, c) →
  load_row line self =
    (mk (plate_resolution self) (plate_offset self)
        (<[Format.pixel_position (plate_resolution self) (plate_offset self) x := i]>
           (emission_lines self))
        (<[Format.pixel_position (plate_resolution self) (plate_offset self) x := c]>
           (comments self)),
     Py.Ok ()).
Proof.
  unfold Format.row_fields, load_row, float, Py.index, Py.try_except.
  destruct (PyStr.split line) as [|tok0 [|tok1 rest]]; try done. run.
  destruct (PyStr.float tok0) as [x'|]; [|done]. run.
  destruct (PyStr.float tok1) as [i'|]; [|done]. run.
  intros [= <- <- <-]. by destruct rest.
Qed.

Lemma load_row_malformed (line : string) (self : t) :
  Format.row_fields line = None →
  ∃ e, load_row line self = (self, Py.Raise e).
Proof.
  unfold Format.row_fields, load_row, float, Py.index, Py.try_except.
  destruct (PyStr.split line) as [|tok0 [|tok1 rest]]; run.
  - by eexists.
  - destruct (PyStr.float tok0); run; by eexists.
  - destruct (PyStr.float tok0) as [x|]; run; [|by eexists].
    destruct (PyStr.float tok1) as [i|]; run; [done|by eexists].
Qed.

(** The loop over the data rows, from any store. *)
Lemma load_rows_spec (rows : list string) (self : t) :
  let r := plate_resolution self in
  let o := plate_offset self in
  ∃ res,
    Py.for_ rows load_row self =
      (mk r o
          (foldl (λ m e, <[Format.pixel_position r o e.1.1 := e.1.2]> m)
                 (emission_lines self) (Format.parsed_prefix rows))
          (foldl (λ m e, <[Format.pixel_position r o e.1.1 := e.2]> m)
                 (comments self) (Format.parsed_prefix rows)),
       res)
    ∧ (res = Py.Ok () ↔ length (Format.parsed_prefix rows) = length rows).
Proof.
  revert self. induction rows as [|line rows IH]; intros self; simpl.
  - exists (Py.Ok ()). by destruct self.
  - unfold Py.bind.
    destruct (Format.row_fields line) as [[[x i] c]|] eqn:Hrow.
    + rewrite (load_row_ok _ _ _ _ _ Hrow).
      destruct (IH (mk (plate_resolution self) (plate_offset self)
        (<[Format.pixel_position (plate_resolution self) (plate_offset self) x := i]>
           (emission_lines self))
        (<[Format.pixel_position (plate_resolution self) (plate_offset self) x := c]>
           (comments self)))) as (res & Hrun & Hres).
      exists res. simpl in *. rewrite Hrun. split; [done|].
      rewrite Hres. split; [by intros ->|by intros [=]].
    + destruct (load_row_malformed line self Hrow) as [e ->].
      exists (Py.Raise e). split; [by destruct self|]. by split.
Qed.

(** [load_lines] leaves the store described by [Format.load_outcome], and
    succeeds exactly when that says so. *)
Lemma load_lines_spec (file : option string) (self : t) :
  ∃ res,
    load_lines file self = ((Format.load_outcome file self).1, res)
    ∧ (res = Py.Ok () ↔ (Format.load_outcome file self).2 = true).
Proof.
  unfold load_lines, Format.load_outcome, Format.header_value.
  destruct file as [text|]; run; [|by eexists].
  unfold Py.index at 1.
  destruct (PyStr.readlines text !! 0%nat) as [line0|] eqn:H0; run;
    [|by eexists].
  unfold Py.index at 1.
  destruct (PyStr.split line0 !! 2%nat) as [tok0|]; run; [|by eexists].
  unfold float at 1.
  destruct (PyStr.float tok0) as [r|]; run; [|by eexists].
  unfold Py.index at 1.
  destruct (PyStr.readlines text !! 1%nat) as [line1|] eqn:H1; run;
    [|by eexists].
  unfold Py.index at 1.
  destruct (PyStr.split line1 !! 2%nat) as [tok1|]; run; [|by eexists].
  unfold float at 1.
  destruct (PyStr.float tok1) as [o|]; run; [|by eexists].
  destruct (load_rows_spec (drop 3 (PyStr.readlines text)) (mk r o ∅ ∅))
    as (res & Hrun & Hres).
  exists res. simpl in *. unfold set_plate_offset, set_plate_resolution,
    set_comments, set_emission_lines. simpl. rewrite Hrun.
  split; [done|]. by rewrite Hres, bool_decide_eq_true.
Qed.
End load_lines.

(** C7.  Whatever the store holds before the call, a file whose two header
    lines give the resolution [r] and the offset [o] and whose rows are
    well formed is loaded as follows: the calibration becomes [(r, o)], and
    the rows are entered in order at the pixel positions
    [(physical - o) * r], computed with the header's values; and the loop
    body enters a row of two tokens with the empty comment, without
    raising. *)
Theorem load_lines_uses_file_calibration
    (self : Data.t) (text : string) (r o : Qc) (entries : list (Qc * Qc * string)) :
  let lines_file := PyStr.readlines text in
  Format.header_value (lines_file !! 0%nat) = Some r →
  Format.header_value (lines_file !! 1%nat) = Some o →
  Forall2 (λ line e, Format.row_fields line = Some e) (drop 3 lines_file) entries →
  Data.load_lines (Some text) self
  = (Data.mk r o
       (foldl (λ m e, <[(e.1.1 - o) * r := e.1.2]> m) ∅ entries)
       (foldl (λ m e, <[(e.1.1 - o) * r := e.2]> m) ∅ entries),
     Py.Ok ())
  ∧ (∀ (d : Data.t) line tok0 tok1 x i,
       PyStr.split line = [tok0; tok1] →
       PyStr.float tok0 = Some x → PyStr.float tok1 = Some i →
       let p := (x - Data.plate_offset d) * Data.plate_resolution d in
       Data.load_row line d
       = (Data.mk (Data.plate_resolution d) (Data.plate_offset d)
            (<[p := i]> (Data.emission_lines d))
            (<[p := ""%string]> (Data.comments d)),
          Py.Ok ())).
Proof.
  intros lines_file Hr Ho Hrows. split.
  - destruct (load_lines_spec (Some text) self) as (res & Hrun & Hres).
    revert Hrun Hres. unfold Format.load_outcome. fold lines_file.
    rewrite Hr, Ho. simpl.
    assert (Format.parsed_prefix (drop 3 lines_file) = entries) as ->.
    { induction Hrows as [|line e rows entries He _ IH]; simpl; [done|].
      by rewrite He, IH. }
    apply Forall2_length in Hrows.
    rewrite bool_decide_eq_true_2 by done.
    intros -> Hres. f_equal. by apply Hres.
  - intros d line tok0 tok1 x i Hs H0 H1 p.
    apply (load_row_ok line x i ""%string d). unfold Format.row_fields.
    by rewrite Hs, H0, H1.
Qed.

(** A file of two rows, the first without comment, loaded into a store
    with another calibration and another line. *)
Lemma load_lines_uses_file_calibration_witness :
  let self := Data.mk (Py.of_Z 7) (Py.of_Z 3) {[Py.of_Z 9 := Py.of_Z 1]} ∅ in
  let text := "Plate Resolution: 100.0 px/mm
Plate Offset: 1.5 mm
 Position | Intensity | Comments
   2.0050     128.000   
   3.0000      12.500   Halpha
"%string in
  Data.load_lines (Some text) self
  = (Data.mk (Py.of_Z 100) (Q2Qc (3 # 2))
       {[Q2Qc (101 # 2) := Py.of_Z 128; Py.of_Z 150 := Q2Qc (25 # 2)]}
       {[Q2Qc (101 # 2) := ""%string; Py.of_Z 150 := "Halpha"%string]},
     Py.Ok ()).
Proof.
  intros self text.
  destruct (load_lines_uses_file_calibration self text (Py.of_Z 100) (Q2Qc (3 # 2))
              [(Q2Qc (2005 # 1000), Py.of_Z 128, ""%string);
               (Py.of_Z 3, Q2Qc (25 # 2), "Halpha"%string)]) as [-> _].
  - by_compute.
  - by_compute.
  - by_compute.
  - by_compute.
Defined.

(** C2, as the code has it.  [load_lines] is not atomic: it empties the
    lines and the comments before it opens the file, and stores each header
    scalar and each row as soon as it is read.  For a file whose numeric
    tokens are free of underscores and of the spellings of infinity and
    nan (the tokens on which [PyStr.float] is Python's [float]), whatever
    the outcome, the store it leaves is [Format.load_outcome]; it succeeds
    exactly when the file can be read, both header lines give a number and
    every row is well formed; and then the store is the same whatever it
    was before. *)
Theorem load_lines_outcome (file : option string) (self : Data.t) :
  Format.numbers_covered file = true →
  (Data.load_lines file self).1 = (Format.load_outcome file self).1
  ∧ ((Data.load_lines file self).2 = Py.Ok ()
     ↔ (Format.load_outcome file self).2 = true)
  ∧ ((Data.load_lines file self).2 = Py.Ok () →
     ∀ other, Data.load_lines file other = Data.load_lines file self).
Proof.
  intros _.
  destruct (load_lines_spec file self) as (res & Hrun & Hres).
  rewrite Hrun. simpl. split; [done|]. split; [done|].
  intros -> other.
  destruct (load_lines_spec file other) as (res' & Hrun' & Hres').
  rewrite Hrun'. apply proj1 in Hres. specialize (Hres eq_refl).
  revert Hres Hres'. unfold Format.load_outcome.
  destruct file as [text|]; simpl; [|done].
  destruct (Format.header_value (PyStr.readlines text !! 0%nat)); simpl; [|done].
  destruct (Format.header_value (PyStr.readlines text !! 1%nat)); simpl; [|done].
  intros -> Hres'. f_equal. by apply Hres'.
Qed.

(** A file of two rows, the second without a comment, read into a store
    that held another line: the load succeeds and the store is the one
    that the file describes. *)
Lemma load_lines_outcome_witness :
  let self := Data.mk (Py.of_Z 100) 0 {[Q2Qc (101 # 2) := Py.of_Z 128]} ∅ in
  let text := "Plate Resolution: 50.0 px/mm
Plate Offset: 1.0 mm
 Position | Intensity | Comments
   1.0000       2.000   ok
   3.0000       4.500   
"%string in
  (Data.load_lines (Some text) self).1 = (Format.load_outcome (Some text) self).1
  ∧ ((Data.load_lines (Some text) self).2 = Py.Ok ()
     ↔ (Format.load_outcome (Some text) self).2 = true)
  ∧ ((Data.load_lines (Some text) self).2 = Py.Ok () →
     ∀ other, Data.load_lines (Some text) other = Data.load_lines (Some text) self).
Proof.
  intros self text. apply (load_lines_outcome (Some text) self). by_compute.
Defined.

(** The claim C2 fails on a file whose second row is malformed: the load
    raises, and the store has lost its line and its calibration and holds
    the first row of the file. *)
Lemma load_lines_failure_mutates :
  let self := Data.mk (Py.of_Z 100) 0 {[Q2Qc (101 # 2) := Py.of_Z 128]} ∅ in
  let text := "Plate Resolution: 50.0 px/mm
Plate Offset: 1.0 mm
 Position | Intensity | Comments
   1.0000       2.000   ok
 bad
"%string in
  Data.load_lines (Some text) self
  = (Data.mk (Py.of_Z 50) 1 {[0 := Py.of_Z 2]} {[0 := "ok"%string]},
     Py.Raise Py.ValueError)
  ∧ (Data.load_lines (Some text) self).1 ≠ self
  ∧ Data.load_lines None self
    = (Data.mk (Py.of_Z 100) 0 ∅ ∅, Py.Raise Py.OSError).
Proof.
  intros self text. split; [by_compute|]. split; by_compute.
Qed.

(** ** scan_plate *)

Section scan_plate.
Import Comparator.

Lemma indices_one (n : nat) : Np.indices [n] = (λ y, [y]) <$> seq 0 n.
Proof.
  simpl. generalize 0%nat. induction n as [|n IH]; intros start; simpl.
  - done.
  - by rewrite IH.
Qed.

(** On the array of a single-band image, of shape (H, W), the loop of
    [scan_plate] computes one sample per column: 256 minus the mean of the
    H pixels of the column. *)
Lemma scan_plate_intensity_grayscale (h w : nat) (px : list nat → Z) :
  scan_plate_intensity (Np.mk [h; w] px)
  = (λ x, Py.of_Z 256
          - Q2Qc (inject_Z (foldr Z.add 0%Z ((λ y, px [y; x]) <$> seq 0 h)))
            / Q2Qc (inject_Z (Z.of_nat h))) <$> seq 0 w.
Proof.
  unfold scan_plate_intensity, Np.iter, Np.transpose. simpl.
  rewrite <-list_fmap_compose. apply list_fmap_ext. intros _ x _. simpl.
  unfold Np.average, Np.items. cbn [Np.shape Np.item].
  rewrite indices_one, <-list_fmap_compose, length_fmap, length_seq.
  done.
Qed.

Lemma scan_plate_intensity_grayscale_length (h w : nat) (px : list nat → Z) :
  length (scan_plate_intensity (Np.mk [h; w] px)) = w.
Proof. by rewrite scan_plate_intensity_grayscale, length_fmap, length_seq. Qed.

(** [scan_plate] succeeds or fails as [interp1d] does on the samples. *)
Lemma scan_plate_outcome (interp1d : list Qc → list Qc → Py.result (Qc → Qc))
    (img : Np.ndarray) (self : t) :
  scan_plate interp1d (Some img) self
  = match interp1d (range (plate_width self)) (scan_plate_intensity img) with
    | Py.Ok f => (set_intensity f self, Py.Ok ())
    | Py.Raise e => (self, Py.Raise e)
    end.
Proof. unfold scan_plate. run. by destruct (interp1d _ _). Qed.
End scan_plate.

(** C4, on multi-band images.  On the array of an image with [c] bands,
    of shape (H, W, c), the loop of [scan_plate] runs over the bands, not
    over the columns: it yields [c] samples, whatever the width, and the
    sample of a band is 256 minus the mean of all the pixels of the image
    in that band. *)
Theorem scan_plate_multiband_samples (h w c : nat) (px : list nat → Z) :
  Comparator.scan_plate_intensity (Np.mk [h; w; c] px)
  = (λ band, Py.of_Z 256
             - Np.average (Np.mk [w; h] (λ idx, px (rev idx ++ [band]))))
    <$> seq 0 c
  ∧ length (Comparator.scan_plate_intensity (Np.mk [h; w; c] px)) = c.
Proof.
  assert (Comparator.scan_plate_intensity (Np.mk [h; w; c] px)
          = (λ band, Py.of_Z 256
                     - Np.average (Np.mk [w; h] (λ idx, px (rev idx ++ [band]))))
            <$> seq 0 c) as Heq.
  { unfold Comparator.scan_plate_intensity, Np.iter, Np.transpose. simpl.
    by rewrite <-list_fmap_compose. }
  split; [done|]. by rewrite Heq, length_fmap, length_seq.
Qed.

(** The failing input of C4: an image one pixel high and two pixels wide
    with the pixels (10, 20, 30) and (40, 50, 60).  The loop yields three
    samples, 256 minus the mean of each band, where the width is 2 and the
    two columns average to 20 and 50. *)
Lemma scan_plate_multiband_samples_witness :
  let px (idx : list nat) : Z :=
    match idx with
    | [0; 0; 0]%nat => 10 | [0; 0; 1]%nat => 20 | [0; 0; 2]%nat => 30
    | [0; 1; 0]%nat => 40 | [0; 1; 1]%nat => 50 | [0; 1; 2]%nat => 60
    | _ => 0
    end%Z in
  let img := Np.mk [1; 2; 3]%nat px in
  Np.shape img !! 1%nat = Some 2%nat
  ∧ length (Comparator.scan_plate_intensity img) = 3%nat
  ∧ Comparator.scan_plate_intensity img = [Py.of_Z 231; Py.of_Z 221; Py.of_Z 211]
  ∧ Comparator.scan_plate_intensity img ≠ [Py.of_Z 236; Py.of_Z 206].
Proof.
  intros px img. split; [done|].
  destruct (scan_plate_multiband_samples 1 2 3 px) as [Heq Hlen].
  split; [exact Hlen|]. fold img in Heq. rewrite Heq.
  split; by_compute.
Defined.

(** ** save_lines then load_lines *)

(** The scenario of the format description: a line at 50.5 px of
    intensity 128, at 100 px per unit and offset 0. *)
Example save_lines_scenario :
  (Data.save_lines
     (Data.mk (Py.of_Z 100) 0 {[Q2Qc (101 # 2) := Py.of_Z 128]} ∅)).2
  = Py.Ok "Plate Resolution: 100.0 px/mm
Plate Offset: 0.0 mm
 Position | Intensity | Comments
   0.5050     128.000   
".
Proof. by_compute. Qed.


(** *** Powers of ten *)

Lemma pow10_of_nat (k : nat) : PyStr.pow10 (Z.of_nat k) = Q2Qc (inject_Z (10 ^ Z.of_nat k)).
Proof. destruct k; [done|]. simpl. done. Qed.


Lemma pow10_neg (k : nat) : PyStr.pow10 (- Z.of_nat k) = / PyStr.pow10 (Z.of_nat k).
Proof. destruct k; [by_compute|]. done. Qed.


(** *** Strings *)

Section strings.
Import PyStr.

Lemma append_cons (c : ascii) (s1 s2 : string) :
  String c s1 +:+ s2 = String c (s1 +:+ s2).
Proof. reflexivity. Qed.

Lemma append_nil_l (s : string) : "" +:+ s = s.
Proof. reflexivity. Qed.

Lemma append_assoc (s1 s2 s3 : string) : (s1 +:+ s2) +:+ s3 = s1 +:+ (s2 +:+ s3).
Proof. induction s1 as [|c s1 IH]; [done|]. rewrite !append_cons. by f_equal. Qed.

Lemma append_nil_r (s : string) : s +:+ "" = s.
Proof. induction s as [|c s IH]; [done|]. rewrite append_cons. by f_equal. Qed.

Lemma length_append (s1 s2 : string) :
  String.length (s1 +:+ s2) = (String.length s1 + String.length s2)%nat.
Proof. induction s1 as [|c s1 IH]; [done|]. rewrite append_cons. simpl. by f_equal. Qed.

Lemma all_chars_append (P : ascii → bool) (s1 s2 : string) :
  all_chars P (s1 +:+ s2) = all_chars P s1 && all_chars P s2.
Proof.
  induction s1 as [|c s1 IH]; [done|]. rewrite append_cons. simpl.
  by rewrite IH, andb_assoc.
Qed.

Lemma all_chars_impl (P Q : ascii → bool) (s : string) :
  (∀ c, P c = true → Q c = true) → all_chars P s = true → all_chars Q s = true.
Proof.
  intros HPQ. induction s as [|c s IH]; simpl; [done|].
  rewrite !andb_true_iff. intros [??]. auto.
Qed.

Lemma all_chars_replicate (P : ascii → bool) (k : nat) (c : ascii) (s : string) :
  P c = true → all_chars P (replicate_char k c s) = all_chars P s.
Proof. intros Hc. induction k as [|k IH]; simpl; [done|]. by rewrite Hc. Qed.

Lemma length_replicate_char (k : nat) (c : ascii) (s : string) :
  String.length (replicate_char k c s) = (k + String.length s)%nat.
Proof. induction k as [|k IH]; simpl; [done|]. by rewrite IH. Qed.

Lemma digit_range (d : Z) :
  (0 ≤ d < 10)%Z →
  d = 0%Z ∨ d = 1%Z ∨ d = 2%Z ∨ d = 3%Z ∨ d = 4%Z ∨ d = 5%Z ∨ d = 6%Z
  ∨ d = 7%Z ∨ d = 8%Z ∨ d = 9%Z.
Proof. lia. Qed.

Lemma digit_digit_char (d : Z) : (0 ≤ d < 10)%Z → digit (digit_char d) = Some d.
Proof. intros H. destruct (digit_range d H) as [->|[->|[->|[->|[->|[->|[->|[->|[->| ->]]]]]]]]]; done. Qed.

Lemma isspace_digit (c : ascii) : isdigit c = true → isspace c = false.
Proof.
  unfold isdigit, digit, isspace. intros [d Hd]%bool_decide_eq_true. revert Hd.
  generalize (ord c). intros n. destruct ((48 <=? n)%N && (n <=? 57)%N) eqn:H; [|done].
  intros _. apply andb_true_iff in H as [H1 H2].
  apply N.leb_le in H1, H2.
  repeat match goal with |- context [(?a <=? ?b)%N] => 
    let H := fresh in destruct (N.leb_spec a b) as [H|H] end;
  repeat match goal with |- context [(?a =? ?b)%N] => 
    let H := fresh in destruct (N.eqb_spec a b) as [H|H] end; simpl; try done; lia.
Qed.

Lemma sign_digit (c : ascii) (s : string) :
  isdigit c = true → sign (String c s) = (false, String c s).
Proof.
  intros H. destruct c as [[] [] [] [] [] [] [] []]; try done.
Qed.

Lemma digits_decimal_go (fuel : nat) (n : Z) (acc : string) :
  (0 ≤ n < 2 ^ Z.of_nat fuel)%Z →
  ∃ len : nat,
    String.length (decimal_go fuel n acc) = (len + String.length acc)%nat
    ∧ (∀ p : nat, (1 ≤ p)%nat → (n < 10 ^ Z.of_nat p)%Z → (len ≤ p)%nat)
    ∧ (fuel ≠ 0%nat → 1 ≤ len)%nat
    ∧ (all_chars isdigit acc = true → all_chars isdigit (decimal_go fuel n acc) = true)
    ∧ (∀ a c rest,
         digits a c (decimal_go fuel n acc +:+ rest)
         = digits (a * 10 ^ Z.of_nat len + n) (c + len) (acc +:+ rest)).
Proof.
  revert n acc. induction fuel as [|fuel IH]; intros n acc Hn.
  - exists 0%nat. simpl in *. assert (n = 0%Z) as -> by lia.
    split; [done|]. split; [lia|]. split; [done|]. split; [done|].
    intros a c rest. f_equal; [lia|lia].
  - simpl. assert (0 ≤ n `mod` 10 < 10)%Z as Hd by (apply Z.mod_pos_bound; lia).
    destruct (Z.eqb_spec (n / 10) 0) as [Hq|Hq].
    + exists 1%nat. assert (n `mod` 10 = n)%Z as Hm.
      { rewrite (Z.div_mod n 10) at 2 by lia. lia. }
      split; [done|]. split; [lia|]. split; [lia|]. split.
      { simpl. intros ->. rewrite andb_true_r. unfold isdigit.
        rewrite digit_digit_char by done. by apply bool_decide_eq_true. }
      intros a c rest. simpl. rewrite digit_digit_char by done.
      f_equal; [lia|lia].
    + assert (0 ≤ n / 10 < 2 ^ Z.of_nat fuel)%Z as Hn'.
      { split; [apply Z.div_pos; lia|].
        apply Z.div_lt_upper_bound; [lia|].
        rewrite Nat2Z.inj_succ, Z.pow_succ_r in Hn by lia. lia. }
      destruct (IH (n / 10)%Z (String (digit_char (n `mod` 10)) acc) Hn')
        as (len & Hlen & Hbound & _ & Hall & Hread).
      exists (S len). split; [simpl in Hlen; lia|]. split; [|split; [lia|split]].
      * intros p Hp Hnp. assert (0 < n / 10)%Z by (pose proof (Z.div_pos n 10); lia).
        destruct p as [|[|p]]; [lia| |].
        { exfalso. change (10 ^ Z.of_nat 1)%Z with 10%Z in Hnp.
          assert (n / 10 = 0)%Z by (apply Z.div_small; lia). lia. }
        assert (len ≤ S p)%nat; [|lia]. apply Hbound; [lia|].
        apply Z.div_lt_upper_bound; [lia|].
        rewrite (Nat2Z.inj_succ (S p)), Z.pow_succ_r in Hnp by lia. lia.
      * intros Hacc. apply Hall. simpl. rewrite Hacc, andb_true_r.
        unfold isdigit. rewrite digit_digit_char by done. by apply bool_decide_eq_true.
      * intros a c rest. rewrite Hread. simpl. rewrite digit_digit_char by done.
        f_equal; [|lia].
        rewrite Nat2Z.inj_succ, Z.pow_succ_r by lia.
        rewrite (Z.div_mod n 10) at 3 by lia. lia.
Qed.
End strings.

(** *** Printing and reading back a natural number *)

Section decimal.
Import PyStr.

Lemma decimal_spec (n : Z) :
  (0 ≤ n)%Z →
  ∃ len : nat,
    (1 ≤ len)%nat
    ∧ String.length (decimal n) = len
    ∧ (∀ p : nat, (1 ≤ p)%nat → (n < 10 ^ Z.of_nat p)%Z → (len ≤ p)%nat)
    ∧ all_chars isdigit (decimal n) = true
    ∧ (∀ a c rest,
         digits a c (decimal n +:+ rest)
         = digits (a * 10 ^ Z.of_nat len + n) (c + len) rest).
Proof.
  intros Hn. unfold decimal.
  destruct (digits_decimal_go (S (Z.to_nat (Z.log2 n))) n "")
    as (len & Hlen & Hbound & Hpos & Hall & Hread).
  { split; [done|]. rewrite Nat2Z.inj_succ, Z2Nat.id by apply Z.log2_nonneg.
    destruct (decide (n = 0%Z)) as [->|]; [reflexivity|].
    apply Z.log2_spec. lia. }
  exists len. split; [apply Hpos; lia|]. split; [rewrite Hlen; simpl; lia|]. split; [done|].
  split; [by apply Hall|]. intros a c rest. by rewrite Hread.
Qed.

Lemma digits_zeros (k : nat) (s : string) (a : Z) (c : nat) :
  digits a c (replicate_char k "0" s)
  = digits (a * 10 ^ Z.of_nat k) (c + k) s.
Proof.
  revert a c. induction k as [|k IH]; intros a c.
  - simpl. f_equal; [lia|lia].
  - simpl. rewrite IH. f_equal; [|lia].
    rewrite Z.add_0_r.
    change (Z.pos (Pos.of_succ_nat k)) with (Z.of_nat (S k)).
    rewrite Nat2Z.inj_succ, Z.pow_succ_r by lia. lia.
Qed.

Lemma replicate_char_append (k : nat) (c : ascii) (s rest : string) :
  replicate_char k c s +:+ rest = replicate_char k c (s +:+ rest).
Proof. induction k as [|k IH]; [done|]. simpl. rewrite append_cons. by f_equal. Qed.

(** The [prec] decimals of a fraction below [10 ^ prec]. *)
Lemma digits_fraction (prec : nat) (fp : Z) (a : Z) (c : nat) (rest : string) :
  (1 ≤ prec)%nat → (0 ≤ fp < 10 ^ Z.of_nat prec)%Z →
  digits a c (rjust prec "0" (decimal fp) +:+ rest)
  = digits (a * 10 ^ Z.of_nat prec + fp) (c + prec) rest.
Proof.
  intros Hprec [Hfp0 Hfp].
  destruct (decimal_spec fp Hfp0) as (len & Hlen1 & Hlen & Hbound & _ & Hread).
  specialize (Hbound prec Hprec Hfp).
  unfold rjust. rewrite Hlen, replicate_char_append, digits_zeros, Hread.
  f_equal; [|lia].
  rewrite <-Z.mul_assoc, <-Z.pow_add_r by lia. do 3 f_equal. lia.
Qed.

Lemma all_chars_rjust_decimal (prec : nat) (fp : Z) :
  (0 ≤ fp)%Z → all_chars isdigit (rjust prec "0" (decimal fp)) = true.
Proof.
  intros H. unfold rjust. rewrite all_chars_replicate by done.
  by destruct (decimal_spec fp H) as (? & ? & ? & ? & ? & ?).
Qed.
End decimal.

(** *** [float] reads what [format_f] prints *)

Section format.
Import PyStr.

Lemma round_half_even_cases (x : Qc) :
  round_half_even x = Qfloor x ∨ round_half_even x = (Qfloor x + 1)%Z.
Proof. unfold round_half_even. repeat case_decide; try destruct (Z.even (Qfloor x)); auto. Qed.

Lemma Qfloor_nonneg (x : Qc) : 0 ≤ x → (0 ≤ Qfloor x)%Z.
Proof. intros H. apply (Qfloor_resp_le 0 x H). Qed.

Lemma Qfloor_neg (x : Qc) : x < 0 → (Qfloor x < 0)%Z.
Proof.
  intros H. pose proof (Qfloor_le x) as Hle.
  assert (inject_Z (Qfloor x) < 0)%Q as Hlt by (eapply Qle_lt_trans; [exact Hle|exact H]).
  unfold Qlt in Hlt. simpl in Hlt. lia.
Qed.

Lemma round_half_even_sign (x : Qc) :
  (if decide (x < 0) then (- Z.abs (round_half_even x))%Z else Z.abs (round_half_even x))
  = round_half_even x.
Proof.
  destruct (decide (x < 0)) as [Hx|Hx].
  - pose proof (Qfloor_neg x Hx). destruct (round_half_even_cases x); lia.
  - apply Qcnot_lt_le, Qfloor_nonneg in Hx.
    destruct (round_half_even_cases x); lia.
Qed.

Lemma Q2Qc_inject_pos (z : Z) : (0 < z)%Z → 0 < Q2Qc (inject_Z z).
Proof.
  intros Hz. unfold Qclt. change (this (Q2Qc (inject_Z z))) with (Qred (inject_Z z)).
  rewrite Qred_correct. unfold Qlt. simpl. lia.
Qed.

Lemma scaled_negative (prec : nat) (x : Qc) :
  x * pow10 (Z.of_nat prec) < 0 ↔ x < 0.
Proof.
  assert (0 < pow10 (Z.of_nat prec)) as Hp.
  { rewrite pow10_of_nat. apply Q2Qc_inject_pos, Z.pow_pos_nonneg; lia. }
  split; intros H.
  - destruct (Qclt_le_dec x 0) as [|Hx]; [done|]. exfalso.
    pose proof (Qcmult_le_compat_r 0 x _ Hx (Qclt_le_weak _ _ Hp)) as Hp'.
    rewrite Qcmult_0_l in Hp'. by apply Qcle_not_lt in Hp'.
  - rewrite <-(Qcmult_0_l (pow10 (Z.of_nat prec))).
    by apply Qcmult_lt_compat_r.
Qed.

Lemma float_format_f (prec : nat) (x : Qc) :
  (1 ≤ prec)%nat → float (format_f prec x) = Some (round x prec).
Proof.
  intros Hprec. unfold format_f, round.
  set (y := x * pow10 (Z.of_nat prec)).
  set (n := Z.abs (round_half_even y)).
  set (scale := (10 ^ Z.of_nat prec)%Z).
  assert (0 < scale)%Z as Hscale by (apply Z.pow_pos_nonneg; lia).
  assert (0 ≤ n)%Z as Hn by apply Z.abs_nonneg.
  assert (0 ≤ n / scale)%Z as Hip by (apply Z.div_pos; lia).
  assert (0 ≤ n `mod` scale < scale)%Z as Hfp by (apply Z.mod_pos_bound; lia).
  destruct (decimal_spec (n / scale) Hip) as (len & Hlen1 & Hlen & _ & Hall & Hread).
  set (F := rjust prec "0" (decimal (n `mod` scale))).
  assert (∀ neg s,
    sign s = (neg, decimal (n / scale) +:+ "." +:+ F) →
    float s = Some (Q2Qc (inject_Z (if neg : bool then (- n)%Z else n))
                    * pow10 (- Z.of_nat prec))) as Hfloat.
  { intros neg s Hs. unfold float. rewrite Hs, Hread. simpl.
    rewrite append_nil_l, <-(append_nil_r F). unfold F.
    rewrite digits_fraction by done. simpl.
    rewrite decide_False by lia. simpl. fold scale.
    assert (((0 * 10 ^ Z.of_nat len + n `div` scale) * scale + n `mod` scale)%Z = n)
      as -> by (rewrite (Z.div_mod n scale) at 3 by lia; lia).
    done. }
  assert ((if decide (x < 0) then (- n)%Z else n) = round_half_even y) as Hsgn.
  { rewrite <-(round_half_even_sign y). subst n.
    destruct (decide (x < 0)) as [Hx|Hx].
    - rewrite (decide_True (P:=y < 0)); [done|]. by apply scaled_negative.
    - rewrite (decide_False (P:=y < 0)); [done|]. unfold y.
      by rewrite scaled_negative. }
  rewrite <-Hsgn. destruct (decide (x < 0)) as [Hx|Hx].
  - by apply (Hfloat true).
  - apply (Hfloat false). rewrite append_nil_l.
    destruct (decimal (n / scale)) as [|c s] eqn:Hd; [simpl in Hlen; lia|].
    rewrite append_cons. apply sign_digit.
    simpl in Hall. by apply andb_true_iff in Hall as [? _].
Qed.

Lemma blank_free_format_f (prec : nat) (x : Qc) :
  blank_free (format_f prec x) = true ∧ format_f prec x ≠ "".
Proof.
  unfold format_f, blank_free.
  set (n := Z.abs _). set (scale := (10 ^ Z.of_nat prec)%Z).
  assert (0 < scale)%Z as Hscale by (apply Z.pow_pos_nonneg; lia).
  assert (0 ≤ n)%Z as Hn by apply Z.abs_nonneg.
  assert (0 ≤ n / scale)%Z as Hip by (apply Z.div_pos; lia).
  assert (0 ≤ n `mod` scale < scale)%Z as Hfp by (apply Z.mod_pos_bound; lia).
  destruct (decimal_spec (n / scale) Hip) as (len & Hlen1 & Hlen & _ & Hall & _).
  split.
  - rewrite !all_chars_append.
    rewrite (all_chars_impl isdigit _ (decimal _)); [|intros c Hc; by rewrite isspace_digit|done].
    rewrite (all_chars_impl isdigit _ (rjust _ _ _));
      [|intros c Hc; by rewrite isspace_digit|apply all_chars_rjust_decimal; lia].
    by destruct (decide (x < 0)).
  - intros H. apply (f_equal String.length) in H.
    rewrite !length_append, Hlen in H. simpl in H. lia.
Qed.
End format.

(** *** Tokens, lines, and [str] *)

Section tokens.
Import PyStr.

Lemma split_blank (c : ascii) (s : string) :
  isspace c = true → split (String c s) = split s.
Proof. intros Hc. unfold split. simpl. destruct (fields s). by rewrite Hc. Qed.

Lemma fields_token (t : string) (c : ascii) (s : string) :
  blank_free t = true → isspace c = true →
  fields (t +:+ String c s) = (t, split s).
Proof.
  intros Ht Hc. induction t as [|a t IH].
  - rewrite append_nil_l. unfold split. simpl. destruct (fields s). by rewrite Hc.
  - rewrite append_cons. simpl. apply andb_true_iff in Ht as [Ha Ht].
    rewrite (IH Ht). by apply negb_true_iff in Ha as ->.
Qed.

Lemma split_token (t : string) (c : ascii) (s : string) :
  blank_free t = true → t ≠ "" → isspace c = true →
  split (t +:+ String c s) = t :: split s.
Proof.
  intros Ht Hne Hc. unfold split at 1. rewrite fields_token by done.
  by destruct t.
Qed.

Lemma split_token_or_empty (t : string) (c : ascii) (s : string) :
  blank_free t = true → isspace c = true →
  split (t +:+ String c s) = (if decide (t = "") then [] else [t]) ++ split s.
Proof.
  intros Ht Hc. unfold split at 1. rewrite fields_token by done.
  by destruct t.
Qed.

Lemma split_spaces (k : nat) (s : string) :
  split (replicate_char k " " s) = split s.
Proof. induction k as [|k IH]; [done|]. simpl. by rewrite split_blank. Qed.

Lemma readlines_line (l rest : string) :
  all_chars (λ c, negb (is_eol c)) l = true →
  readlines (l +:+ String newline rest)
  = (l +:+ String newline "") :: readlines rest.
Proof.
  induction l as [|c l IH]; intros Hl.
  - by rewrite !append_nil_l.
  - rewrite !append_cons. simpl in *. apply andb_true_iff in Hl as [Hc Hl].
    apply negb_true_iff, bool_decide_eq_false in Hc.
    rewrite !decide_False by tauto. by rewrite (IH Hl).
Qed.

Lemma blank_free_one_line (s : string) :
  blank_free s = true → all_chars (λ c, negb (is_eol c)) s = true.
Proof.
  apply all_chars_impl. intros c Hc. apply negb_true_iff, bool_decide_eq_false.
  by intros [->| ->].
Qed.






Lemma str_format (x : Qc) :
  ∃ k : nat, (1 ≤ k)%nat ∧ str x = format_f k x.
Proof.
  unfold str. destruct (list_find _ _) as [[i k]|] eqn:Hfind.
  - exists k. split; [|done]. apply list_find_Some in Hfind as (Hk & _ & _).
    apply lookup_seq in Hk. lia.
  - exists 17%nat. split; [lia|done].
Qed.

Lemma blank_free_str (x : Qc) : blank_free (str x) = true ∧ str x ≠ "".
Proof. destruct (str_format x) as (k & _ & ->). apply blank_free_format_f. Qed.


End tokens.

(** *** The rows and the header of the file *)

Section rows.
Import PyStr.

(** A number in a field, followed by a blank, is one token. *)
Lemma split_format_wf (width prec : nat) (x : Qc) (c : ascii) (rest : string) :
  isspace c = true →
  split (format_wf width prec x +:+ String c rest)
  = format_f prec x :: split rest.
Proof.
  intros Hc. unfold format_wf, rjust.
  rewrite replicate_char_append, split_spaces.
  destruct (blank_free_format_f prec x). by apply split_token.
Qed.

Lemma split_row (x i : Qc) (comment : string) :
  blank_free comment = true →
  split (Format.row x i comment)
  = format_f 4 x :: format_f 3 i :: (if decide (comment = "") then [] else [comment]).
Proof.
  intros Hc. unfold Format.row.
  rewrite !append_cons, !append_nil_l.
  rewrite split_blank, split_format_wf by done.
  rewrite split_blank, split_format_wf by done.
  rewrite !split_blank by done.
  rewrite split_token_or_empty by done.
  by rewrite app_nil_r.
Qed.

Lemma row_fields_row (x i : Qc) (comment : string) :
  blank_free comment = true →
  Format.row_fields (Format.row x i comment)
  = Some (round x 4, round i 3, comment).
Proof.
  intros Hc. unfold Format.row_fields. rewrite split_row by done.
  rewrite !float_format_f by lia. simpl.
  by destruct (decide (comment = "")) as [->|].
Qed.

Lemma one_line_format_wf (width prec : nat) (x : Qc) :
  all_chars (λ c, negb (is_eol c)) (format_wf width prec x) = true.
Proof.
  unfold format_wf, rjust. rewrite all_chars_replicate by done.
  apply blank_free_one_line, blank_free_format_f.
Qed.

Lemma readlines_row (x i : Qc) (comment rest : string) :
  blank_free comment = true →
  readlines (Format.row x i comment +:+ rest)
  = Format.row x i comment :: readlines rest.
Proof.
  intros Hc.
  assert (∀ tl, Format.row x i comment +:+ tl
    = (" " +:+ format_wf 8 4 x +:+ "  " +:+ format_wf 10 3 i +:+ "   " +:+ comment)
      +:+ String newline tl) as Hrow.
  { intros tl. unfold Format.row.
    by rewrite !append_assoc, !append_cons, !append_nil_l. }
  rewrite <-(append_nil_r (Format.row x i comment)) at 2.
  rewrite !Hrow. apply readlines_line.
  rewrite !all_chars_append, !one_line_format_wf.
  by rewrite (blank_free_one_line comment).
Qed.

Lemma readlines_header (resolution offset : Qc) (rest : string) :
  readlines (Format.header resolution offset +:+ rest)
  = ("Plate Resolution: " +:+ str (round resolution 3) +:+ " px/mm"
       +:+ String newline "")
    :: ("Plate Offset: " +:+ str offset +:+ " mm" +:+ String newline "")
    :: (" Position | Intensity | Comments" +:+ String newline "")
    :: readlines rest.
Proof.
  unfold Format.header.
  assert (∀ a b c tl, a +:+ b +:+ c +:+ String newline "" +:+ tl
                      = (a +:+ b +:+ c) +:+ String newline tl) as Hline.
  { intros. by rewrite !append_assoc, !append_cons, !append_nil_l. }
  rewrite !append_assoc.
  rewrite Hline, readlines_line.
  2:{ rewrite !all_chars_append, (blank_free_one_line (str _)); [done|].
      apply blank_free_str. }
  rewrite Hline, readlines_line.
  2:{ rewrite !all_chars_append, (blank_free_one_line (str _)); [done|].
      apply blank_free_str. }
  assert (∀ t tl, t +:+ String newline "" +:+ tl = t +:+ String newline tl)
    as Hnl by done.
  rewrite Hnl, readlines_line by done.
  by rewrite !append_assoc.
Qed.
End rows.

(** *** What [save_lines] writes *)

Section save.
Import Data.



Lemma save_row_spec (pos i : Qc) (self : t) :
  plate_resolution self ≠ 0 →
  emission_lines self !! pos = Some i →
  ∃ c' : gmap Qc string,
    save_row pos self
    = (set_comments c' self,
       Py.Ok (Format.row (pos / plate_resolution self + plate_offset self) i
                (default "" (comments self !! pos))))
    ∧ ∀ q, default "" (c' !! q) = default "" (comments self !! q).
Proof.
  intros Hr Hi. unfold save_row, Py.truediv, emission_lines_getitem,
    comments_getitem, Py.dd_getitem. run.
  rewrite decide_False by done. run. rewrite Hi. simpl.
  destruct (comments self !! pos) as [c|] eqn:Hc; simpl.
  - exists (comments self). split; [by destruct self|done].
  - exists (<[pos := ""]> (comments self)). split; [by destruct self|].
    intros q. destruct (decide (q = pos)) as [->|].
    + by rewrite lookup_insert_eq, Hc.
    + by rewrite lookup_insert_ne.
Qed.

Lemma save_rows_spec (cm : Qc → string) (ks : list Qc) (written : string) (self : t) :
  plate_resolution self ≠ 0 →
  (∀ k, k ∈ ks → is_Some (emission_lines self !! k)) →
  (∀ q, default "" (comments self !! q) = cm q) →
  ∃ c' : gmap Qc string,
    save_rows ks written self
    = (set_comments c' self,
       Py.Ok (written +:+
              foldr (λ pos acc,
                       Format.row (pos / plate_resolution self + plate_offset self)
                         (default 0 (emission_lines self !! pos)) (cm pos) +:+ acc)
                    "" ks)).
Proof.
  intros Hr. revert written self Hr.
  induction ks as [|pos ks IH]; intros written self Hr Hks Hcm.
  - exists (comments self). simpl. rewrite append_nil_r. by destruct self.
  - destruct (Hks pos) as [i Hi]; [by left|].
    destruct (save_row_spec pos i self Hr Hi) as (c1 & Hrow & Hc1).
    destruct (IH (written +:+ Format.row (pos / plate_resolution self + plate_offset self)
                               i (cm pos)) (set_comments c1 self))
      as (c' & Hrun); [done| | |].
    { intros k Hk. apply Hks. by right. }
    { intros q. simpl. by rewrite Hc1. }
    exists c'. simpl. unfold mbind, M_bind, Py.bind. rewrite Hrow, Hcm, Hrun.
    simpl. rewrite Hi. simpl. rewrite append_assoc. by destruct self.
Qed.

Lemma save_lines_spec (self : t) :
  plate_resolution self ≠ 0 →
  ∃ c' : gmap Qc string,
    save_lines self
    = (set_comments c' self,
       Py.Ok (Format.header (plate_resolution self) (plate_offset self) +:+
              foldr (λ pos acc,
                       Format.row (pos / plate_resolution self + plate_offset self)
                         (default 0 (emission_lines self !! pos))
                         (default "" (comments self !! pos)) +:+ acc)
                    "" (merge_sort Qcle (map_to_list (emission_lines self)).*1))).
Proof.
  intros Hr.
  destruct (save_rows_spec (λ q, default "" (comments self !! q))
              (merge_sort Qcle (map_to_list (emission_lines self)).*1)
              (Format.header (plate_resolution self) (plate_offset self)) self Hr)
    as (c' & Hrun); [|done|].
  { intros k Hk. rewrite merge_sort_Permutation in Hk.
    by apply elem_of_positions. }
  exists c'. rewrite <-Hrun. unfold save_lines, get_positions. run.
  done.
Qed.
End save.

(** *** What [load_lines] reads back *)

Section reload.
Import Data.

Lemma readlines_rows (x i : Qc → Qc) (cm : Qc → string) (ks : list Qc) :
  (∀ k, k ∈ ks → PyStr.blank_free (cm k) = true) →
  PyStr.readlines (foldr (λ pos acc, Format.row (x pos) (i pos) (cm pos) +:+ acc) "" ks)
  = (λ pos, Format.row (x pos) (i pos) (cm pos)) <$> ks.
Proof.
  induction ks as [|k ks IH]; intros Hks; [done|]. cbn [foldr].
  rewrite fmap_cons, readlines_row by (apply Hks; by left).
  rewrite IH; [done|]. intros k' Hk'. apply Hks. by right.
Qed.

Lemma parsed_prefix_rows (x i : Qc → Qc) (cm : Qc → string) (ks : list Qc) :
  (∀ k, k ∈ ks → PyStr.blank_free (cm k) = true) →
  Format.parsed_prefix ((λ pos, Format.row (x pos) (i pos) (cm pos)) <$> ks)
  = (λ pos, (PyStr.round (x pos) 4, PyStr.round (i pos) 3, cm pos)) <$> ks.
Proof.
  induction ks as [|k ks IH]; intros Hks; [done|].
  rewrite !fmap_cons. cbn [Format.parsed_prefix].
  rewrite row_fields_row by (apply Hks; by left).
  rewrite IH; [done|]. intros k' Hk'. apply Hks. by right.
Qed.






End reload.


(** *** The error of rounding *)

Section round_error.
Import PyStr.



End round_error.



(** *** The round trip *)





(** * Further properties

    Properties of the methods beyond the statements above: edge cases
    and failures, what a method leaves untouched, and how the methods
    compose. *)

(** ** Linear arithmetic on floats *)

Lemma abs_spec (x t : Qc) : Py.abs x < t ↔ - t < x ∧ x < t.
Proof.
  unfold Py.abs. destruct (decide (x < 0)) as [Hx|Hx].
  - split; [intros H; split|intros [H1 H2]]; qc_lra.
  - apply Qcnot_lt_le in Hx. split; [intros H; split|intros [H1 H2]]; qc_lra.
Qed.

Lemma near_spec (p q : Qc) :
  Comparator.near p q = true ↔ q - lit_0_1 < p ∧ p < q + lit_0_1.
Proof.
  unfold Comparator.near. rewrite bool_decide_eq_true, abs_spec.
  split; intros [H1 H2]; split; qc_lra.
Qed.

Lemma near_refl (p : Qc) : Comparator.near p p = true.
Proof. apply near_spec. unfold lit_0_1. split; qc_lra. Qed.

(** ** add_line: bounds and messages *)

Section add_line_bounds.
Import Comparator.

Lemma add_line_out_of_bounds (self : t) :
  ¬ (0 < M self ∧ M self < Py.of_Z (plate_width self)) →
  add_line self =
    (mk (data self) (M self) (plate_width self) (intensity self)
        "Error: Line out of bounds.",
     Py.Ok ()).
Proof.
  intros Hout. unfold add_line, self_data, Data.get_positions, configure. run.
  destruct (add_line_check_flags (M self)
    (map_to_list (Data.emission_lines (data self))).*1
    (mk_locals
       (negb (bool_decide (0 < M self)
              && bool_decide (M self < Py.of_Z (plate_width self))))
       false None)) as [-> ->]. simpl.
  assert (bool_decide (0 < M self)
          && bool_decide (M self < Py.of_Z (plate_width self)) = false) as ->.
  { apply andb_false_iff.
    destruct (decide (0 < M self)) as [H0|H0].
    - right. apply bool_decide_eq_false. tauto.
    - left. by apply bool_decide_eq_false. }
  simpl. run. by destruct self as [[] ? ? ? ?].
Qed.
End add_line_bounds.



(** X2.  Whatever the store holds, [add_line] never shows "Error: Line
    already added.": the message it sets is "Line added." when
    [0 < self.M < self.plate_width] and "Error: Line out of bounds."
    otherwise, even when a stored line is within 0.1 px of [self.M]. *)
Theorem add_line_never_reports_duplicate (self : Comparator.t) :
  let shown := Comparator.comment_notif (Comparator.add_line self).1 in
  shown ≠ "Error: Line already added."
  ∧ (0 < Comparator.M self ∧ Comparator.M self < Py.of_Z (Comparator.plate_width self) →
     shown = "Line added.")
  ∧ (¬ (0 < Comparator.M self
        ∧ Comparator.M self < Py.of_Z (Comparator.plate_width self)) →
     shown = "Error: Line out of bounds.").
Proof.
  intros shown. subst shown.
  destruct (decide (0 < Comparator.M self
                    ∧ Comparator.M self < Py.of_Z (Comparator.plate_width self)))
    as [[H0 Hw]|Hout].
  - rewrite add_line_in_bounds by done. simpl. repeat split; try done.
    intros Hout. exfalso. by apply Hout.
  - rewrite add_line_out_of_bounds by done. simpl. repeat split; done.
Qed.

(** ** The tolerance of 0.1 px; adding, commenting and deleting *)

Lemma data_eq (d1 d2 : Data.t) :
  Data.plate_resolution d1 = Data.plate_resolution d2 →
  Data.plate_offset d1 = Data.plate_offset d2 →
  (∀ q, Data.emission_lines d1 !! q = Data.emission_lines d2 !! q) →
  (∀ q, Data.comments d1 !! q = Data.comments d2 !! q) →
  d1 = d2.
Proof.
  destruct d1, d2. simpl. intros -> -> Hl Hc. f_equal; by apply map_eq.
Qed.

(** X4.  [delete_line] a second time at the same scan position finds
    nothing to delete: if the state after a first [delete_line] has kept
    its store and its scan position (the redraw in between touches no
    line and may or may not move the scan line), a second [delete_line]
    leaves the store as the first left it and sets the message
    "Error: No line to delete.". *)
Theorem delete_line_idempotent (self self1 : Comparator.t) :
  Comparator.data self1 = Comparator.data (Comparator.delete_line self).1 →
  Comparator.M self1 = Comparator.M self →
  let self2 := (Comparator.delete_line self1).1 in
  Comparator.data self2 = Comparator.data self1
  ∧ Comparator.comment_notif self2 = "Error: No line to delete.".
Proof.
  intros Hdata HM self2.
  destruct (delete_line_spec self) as (d1 & Hrun1 & Hr1 & Ho1 & Hl1 & Hc1).
  rewrite Hrun1 in Hdata. simpl in Hdata.
  destruct (delete_line_spec self1) as (d2 & Hrun2 & Hr2 & Ho2 & Hl2 & Hc2).
  rewrite Hdata, HM in *.
  assert (∀ q, ¬ (is_Some (Data.emission_lines d1 !! q)
                  ∧ Comparator.near q (Comparator.M self) = true)) as Hnone.
  { intros q [Hq Hn]. rewrite Hl1 in Hq. case_decide as Hd; [by destruct Hq|].
    apply Hd. by split. }
  unfold self2. rewrite Hrun2. simpl. split.
  - apply data_eq; [done|done| |].
    + intros q. rewrite Hl2. by rewrite decide_False by apply Hnone.
    + intros q. rewrite Hc2. by rewrite decide_False by apply Hnone.
  - destruct (existsb (λ k, Comparator.near k (Comparator.M self))
               (map_to_list (Data.emission_lines d1)).*1) eqn:Hex; [|done]. exfalso.
    apply existsb_exists in Hex as (k & Hk & Hn).
    apply list_elem_of_In, elem_of_positions in Hk. by apply (Hnone k).
Qed.

(** Two lines near 50.05 px and one at 70 px: after a first deletion a
    second one, at the same position, changes nothing. *)
Lemma delete_line_idempotent_witness :
  let self := Comparator.mk
    (Data.mk (Py.of_Z 100) 0
       {[Py.of_Z 50 := Py.of_Z 128; Q2Qc (501 # 10) := Py.of_Z 7;
         Py.of_Z 70 := Py.of_Z 3]} ∅)
    (Q2Qc (5005 # 100)) 100 (λ _, Py.of_Z 120) "" in
  let self1 := (Comparator.delete_line self).1 in
  Comparator.data (Comparator.delete_line self1).1 = Comparator.data self1
  ∧ Comparator.comment_notif (Comparator.delete_line self1).1
    = "Error: No line to delete.".
Proof.
  intros self self1. apply (delete_line_idempotent self self1); [done|by_compute].
Defined.

(** X5.  [add_line] at a position inside the plate followed by
    [delete_line] at the same scan position: if the state after
    [add_line] has kept its store and its scan position (the redraw in
    between touches no line and may or may not move the scan line), the
    lines left by [delete_line] are the lines that were stored before
    [add_line] and do not pass the test [abs(pos - self.M) < 0.1]; the
    line just added is gone, together with every older line near it. *)
Theorem add_then_delete_line (self self1 : Comparator.t) :
  0 < Comparator.M self →
  Comparator.M self < Py.of_Z (Comparator.plate_width self) →
  Comparator.data self1 = Comparator.data (Comparator.add_line self).1 →
  Comparator.M self1 = Comparator.M self →
  let self' := (Comparator.delete_line self1).1 in
  Data.emission_lines (Comparator.data self')
  = filter (λ kv, Comparator.near kv.1 (Comparator.M self) = false)
      (Data.emission_lines (Comparator.data self))
  ∧ Data.emission_lines (Comparator.data self') !! Comparator.M self = None.
Proof.
  intros H0 Hw Hdata HM self'. unfold self'.
  rewrite add_line_in_bounds in Hdata by done. simpl in Hdata.
  destruct (delete_line_spec self1) as (d' & Hrun & _ & _ & Hl & _).
  rewrite Hrun. rewrite Hdata, HM in Hl. simpl in *.
  pose proof (near_refl (Comparator.M self)) as Hrefl.
  split.
  - apply map_eq. intros q. rewrite Hl, map_lookup_filter.
    destruct (decide (q = Comparator.M self)) as [->|Hne].
    + rewrite lookup_insert_eq, decide_True by (split; [by eexists|done]).
      destruct (_ !! _); simpl; [|done]. by rewrite option_guard_False by congruence.
    + rewrite lookup_insert_ne by done.
      destruct (Data.emission_lines (Comparator.data self) !! q) as [i|] eqn:Hq; simpl.
      * destruct (Comparator.near q (Comparator.M self)) eqn:Hn.
        -- rewrite decide_True by (split; [by eexists|done]).
           by rewrite option_guard_False.
        -- rewrite decide_False by (by intros [_ ?]).
           by rewrite option_guard_True.
      * done.
  - rewrite Hl, lookup_insert_eq. by rewrite decide_True by (split; [by eexists|done]).
Qed.

Lemma add_then_delete_line_witness :
  let self := Comparator.mk
    (Data.mk (Py.of_Z 100) 0 {[Py.of_Z 50 := Py.of_Z 128; Py.of_Z 70 := Py.of_Z 3]} ∅)
    (Q2Qc (5005 # 100)) 100 (λ _, Py.of_Z 120) "" in
  Data.emission_lines
    (Comparator.data (Comparator.delete_line (Comparator.add_line self).1).1)
  = {[Py.of_Z 70 := Py.of_Z 3]}.
Proof.
  intros self.
  destruct (add_then_delete_line self (Comparator.add_line self).1) as [-> _];
    [by_compute|by_compute|done|by_compute|].
  by_compute.
Defined.

(** X6.  [add_comment] with a non-empty text followed by
    [delete_line]: every stored line within 0.1 px of [self.M] is removed
    together with its comment, no entry being left in [comments]. *)
Theorem add_comment_then_delete_line (text : string) (self : Comparator.t) :
  text ≠ "" →
  let self' := (Comparator.delete_line (Comparator.add_comment text self).1).1 in
  ∀ q, is_Some (Data.emission_lines (Comparator.data self) !! q) →
       Comparator.near q (Comparator.M self) = true →
       Data.emission_lines (Comparator.data self') !! q = None
       ∧ Data.comments (Comparator.data self') !! q = None.
Proof.
  intros Htext self' q Hq Hn. unfold self'.
  destruct (add_comment_spec text self) as (c1 & Hrun1 & Hc1).
  rewrite Hrun1. simpl. set (self1 := Comparator.mk _ _ _ _ _).
  destruct (delete_line_spec self1) as (d' & Hrun & _ & _ & Hl & Hc).
  rewrite Hrun. simpl in *.
  rewrite Hl, Hc, !(decide_True (P:=_ ∧ _)) by (by split). split; [done|].
  rewrite Hc1, (decide_True (P:=_ ∧ _)) by (by split). simpl.
  by rewrite decide_False.
Qed.

Lemma add_comment_then_delete_line_witness :
  let self := Comparator.mk
    (Data.mk (Py.of_Z 100) 0 {[Py.of_Z 50 := Py.of_Z 128]} ∅)
    (Q2Qc (5005 # 100)) 100 (λ _, Py.of_Z 120) "" in
  Data.comments
    (Comparator.data (Comparator.delete_line (Comparator.add_comment "Halpha" self).1).1)
    !! Py.of_Z 50 = None.
Proof.
  intros self.
  apply (add_comment_then_delete_line "Halpha" self); [done|by_compute|by_compute].
Defined.

(** X7.  [Data.remove_line] at a position where no line is stored
    raises [KeyError] and changes nothing; at a stored line whose comment
    is not empty it deletes the line and the comment. *)
Theorem remove_line_cases (self : Data.t) (position : Qc) :
  (Data.emission_lines self !! position = None →
   Data.remove_line position self = (self, Py.Raise Py.KeyError))
  ∧ (∀ i c, Data.emission_lines self !! position = Some i →
            Data.comments self !! position = Some c → c ≠ "" →
            Data.remove_line position self
            = (Data.mk (Data.plate_resolution self) (Data.plate_offset self)
                 (delete position (Data.emission_lines self))
                 (delete position (Data.comments self)),
               Py.Ok ())).
Proof.
  split; [apply remove_line_missing|].
  intros i c Hi Hc Hne. rewrite (remove_line_present _ _ _ Hi), Hc. simpl.
  by rewrite decide_False.
Qed.

(** ** save_lines: failure, side effect, layout of the file *)

Section save_more.
Import Data.

Lemma sorted_positions_nil (self : t) :
  merge_sort Qcle (map_to_list (emission_lines self)).*1 = [] →
  emission_lines self = ∅.
Proof.
  intros H. apply map_to_list_empty_iff, fmap_nil_inv with (f := fst).
  apply Permutation_nil_r. rewrite <-H. by rewrite merge_sort_Permutation.
Qed.

Lemma save_row_zero_resolution (pos : Qc) (self : t) :
  plate_resolution self = 0 →
  save_row pos self = (self, Py.Raise Py.ZeroDivisionError).
Proof.
  intros Hr. unfold save_row, Py.truediv. run. by rewrite decide_True.
Qed.

(** The comment store after [save_row]. *)
Lemma save_row_frame (pos i : Qc) (self : t) :
  plate_resolution self ≠ 0 →
  emission_lines self !! pos = Some i →
  ∃ text,
    save_row pos self
    = (set_comments
         (match comments self !! pos with
          | Some _ => comments self
          | None => <[pos := ""]> (comments self)
          end) self,
       Py.Ok text).
Proof.
  intros Hr Hi. unfold save_row, Py.truediv, emission_lines_getitem,
    comments_getitem, Py.dd_getitem. run.
  rewrite decide_False by done. run. rewrite Hi. simpl.
  destruct (comments self !! pos) as [c|] eqn:Hc; simpl; eexists;
    by destruct self.
Qed.

Lemma save_rows_frame (ks : list Qc) (written : string) (self : t) :
  plate_resolution self ≠ 0 →
  (∀ k, k ∈ ks → is_Some (emission_lines self !! k)) →
  ∃ (c' : gmap Qc string) text,
    save_rows ks written self = (set_comments c' self, Py.Ok text)
    ∧ ∀ q, c' !! q = match comments self !! q with
                     | Some c => Some c
                     | None => if decide (q ∈ ks) then Some "" else None
                     end.
Proof.
  intros Hr. revert written self Hr.
  induction ks as [|pos ks IH]; intros written self Hr Hks.
  - exists (comments self), written. split; [by destruct self|].
    intros q. destruct (comments self !! q); [done|].
    rewrite decide_False; [done|]. apply not_elem_of_nil.
  - destruct (Hks pos) as [i Hi]; [by left|].
    destruct (save_row_frame pos i self Hr Hi) as (row & Hrow).
    set (c1 := match comments self !! pos with
               | Some _ => comments self
               | None => <[pos := ""]> (comments self)
               end) in *.
    destruct (IH (written +:+ row) (set_comments c1 self)) as (c' & text & Hrun & Hc');
      [done| |].
    { intros k Hk. apply Hks. by right. }
    exists c', text. split.
    + simpl. unfold mbind, M_bind, Py.bind. rewrite Hrow, Hrun. by destruct self.
    + intros q. rewrite Hc'. simpl. unfold c1.
      destruct (decide (q = pos)) as [->|Hne].
      * destruct (comments self !! pos) as [c|] eqn:Hc; [by rewrite Hc|].
        rewrite lookup_insert_eq. rewrite decide_True; [done|by left].
      * assert (match comments self !! pos with
                | Some _ => comments self
                | None => <[pos := ""]> (comments self)
                end !! q = comments self !! q) as ->.
        { destruct (comments self !! pos); [done|by rewrite lookup_insert_ne]. }
        destruct (comments self !! q); [done|].
        destruct (decide (q ∈ ks)) as [Hq|Hq].
        -- rewrite decide_True; [done|by right].
        -- rewrite decide_False; [done|]. by intros [?|?]%elem_of_cons.
Qed.
Lemma save_lines_zero_division (self : t) :
  plate_resolution self = 0 → emission_lines self ≠ ∅ →
  save_lines self = (self, Py.Raise Py.ZeroDivisionError).
Proof.
  intros Hr Hne. unfold save_lines, get_positions. run.
  destruct (merge_sort Qcle (map_to_list (emission_lines self)).*1)
    as [|k ks] eqn:Hks; [by apply sorted_positions_nil in Hks|].
  simpl. unfold mbind, M_bind, Py.bind.
  by rewrite save_row_zero_resolution.
Qed.
End save_more.

(** X8.  [Data.save_lines] with a plate resolution of 0: a store that
    holds a line fails with [ZeroDivisionError] on its first row, the
    store being unchanged; an empty store is saved, the file being the
    three header lines. *)
Theorem save_lines_zero_resolution (self : Data.t) :
  Data.plate_resolution self = 0 →
  (Data.emission_lines self ≠ ∅ →
   Data.save_lines self = (self, Py.Raise Py.ZeroDivisionError))
  ∧ (Data.emission_lines self = ∅ →
     Data.save_lines self
     = (self, Py.Ok (Format.header 0 (Data.plate_offset self)))).
Proof.
  intros Hr. split.
  - intros Hne. by apply save_lines_zero_division.
  - intros Hempty. unfold Data.save_lines, Data.get_positions. run.
    rewrite Hempty, map_to_list_empty. simpl. unfold Format.header.
    by rewrite Hr.
Qed.

Lemma save_lines_zero_resolution_witness :
  let self := Data.mk 0 0 {[Py.of_Z 50 := Py.of_Z 128]} ∅ in
  Data.save_lines self = (self, Py.Raise Py.ZeroDivisionError).
Proof.
  intros self. apply (save_lines_zero_resolution self); [done|].
  intros H. apply (f_equal (λ m : gmap Qc Qc, m !! Py.of_Z 50)) in H.
  revert H. by_compute.
Defined.

(** X9.  [Data.save_lines] is not read-only.  With a non-zero
    resolution it succeeds and keeps the resolution, the offset and the
    lines, but [self.comments[pos]] is a read of a [defaultdict]: each
    stored line that had no comment has the empty comment afterwards.
    Existing comments are kept and no comment is created elsewhere. *)
Theorem save_lines_adds_empty_comments (self : Data.t) :
  Data.plate_resolution self ≠ 0 →
  ∃ text,
    (Data.save_lines self).2 = Py.Ok text
    ∧ Data.plate_resolution (Data.save_lines self).1 = Data.plate_resolution self
    ∧ Data.plate_offset (Data.save_lines self).1 = Data.plate_offset self
    ∧ Data.emission_lines (Data.save_lines self).1 = Data.emission_lines self
    ∧ ∀ q, Data.comments (Data.save_lines self).1 !! q
           = match Data.comments self !! q with
             | Some c => Some c
             | None => if decide (is_Some (Data.emission_lines self !! q))
                       then Some "" else None
             end.
Proof.
  intros Hr.
  destruct (save_rows_frame
              (merge_sort Qcle (map_to_list (Data.emission_lines self)).*1)
              (Format.header (Data.plate_resolution self) (Data.plate_offset self))
              self Hr) as (c' & text & Hrun & Hc').
  { intros k Hk. rewrite merge_sort_Permutation in Hk. by apply elem_of_positions. }
  assert (Data.save_lines self = (Data.set_comments c' self, Py.Ok text)) as ->.
  { rewrite <-Hrun. unfold Data.save_lines, Data.get_positions. by run. }
  exists text. simpl. repeat (split; [done|]).
  intros q. rewrite Hc'. destruct (Data.comments self !! q); [done|].
  destruct (decide (is_Some _)) as [Hq|Hq].
  - rewrite decide_True; [done|]. rewrite merge_sort_Permutation.
    by apply elem_of_positions.
  - rewrite decide_False; [done|]. rewrite merge_sort_Permutation.
    by rewrite elem_of_positions.
Qed.

Lemma save_lines_adds_empty_comments_witness :
  let self := Data.mk (Py.of_Z 100) 0 {[Py.of_Z 50 := Py.of_Z 128]} ∅ in
  Data.comments (Data.save_lines self).1 !! Py.of_Z 50 = Some "".
Proof.
  intros self.
  destruct (save_lines_adds_empty_comments self) as (text & _ & _ & _ & _ & Hc);
    [by_compute|].
  rewrite Hc. by_compute.
Defined.

Section rounding_order.
Import PyStr.

Lemma Q2Qc_inject_le (a b : Z) : (a ≤ b)%Z → Q2Qc (inject_Z a) ≤ Q2Qc (inject_Z b).
Proof.
  intros H. unfold Qcle. cbn [this Q2Qc]. rewrite !Qred_correct.
  unfold Qle. simpl. lia.
Qed.

Lemma round_half_even_mono (x y : Qc) :
  x ≤ y → (round_half_even x ≤ round_half_even y)%Z.
Proof.
  intros Hxy.
  assert (Qfloor x ≤ Qfloor y)%Z as Hf by (by apply Qfloor_resp_le).
  destruct (decide (Qfloor x = Qfloor y)) as [Heq|Hne].
  - unfold round_half_even. rewrite <-Heq.
    set (f := Qfloor x) in *. set (F := Q2Qc (inject_Z f)).
    repeat case_decide; try lia; try (destruct (Z.even f); lia);
      exfalso; subst F; qc_lra.
  - destruct (round_half_even_cases x), (round_half_even_cases y); lia.
Qed.

Lemma round_mono (k : nat) (x y : Qc) : x ≤ y → round x k ≤ round y k.
Proof.
  intros Hxy. unfold round.
  assert (0 < pow10 (Z.of_nat k)) as Hp.
  { rewrite pow10_of_nat. apply Q2Qc_inject_pos, Z.pow_pos_nonneg; lia. }
  apply Qcmult_le_mono_nonneg_r.
  - rewrite pow10_neg. by apply Qclt_le_weak, Qcinv_pos.
  - apply Q2Qc_inject_le, round_half_even_mono.
    by apply Qcmult_le_mono_nonneg_r; [apply Qclt_le_weak|].
Qed.

Lemma physical_position_mono (r o p1 p2 : Qc) :
  0 < r → p1 ≤ p2 → p1 / r + o ≤ p2 / r + o.
Proof.
  intros Hr Hp. apply Qcplus_le_mono_r. unfold Qcdiv.
  apply Qcmult_le_mono_nonneg_r; [|done]. by apply Qclt_le_weak, Qcinv_pos.
Qed.
End rounding_order.

Section file_lines.
Import PyStr.

Lemma readlines_row_one_line (x i : Qc) (comment rest : string) :
  all_chars (λ c, negb (is_eol c)) comment = true →
  readlines (Format.row x i comment +:+ rest)
  = Format.row x i comment :: readlines rest.
Proof.
  intros Hc.
  assert (∀ tl, Format.row x i comment +:+ tl
    = (" " +:+ format_wf 8 4 x +:+ "  " +:+ format_wf 10 3 i +:+ "   " +:+ comment)
      +:+ String newline tl) as Hrow.
  { intros tl. unfold Format.row.
    by rewrite !append_assoc, !append_cons, !append_nil_l. }
  rewrite <-(append_nil_r (Format.row x i comment)) at 2.
  rewrite !Hrow. apply readlines_line.
  rewrite !all_chars_append, !one_line_format_wf.
  by rewrite Hc.
Qed.

Lemma length_readlines_rows (x i : Qc → Qc) (cm : Qc → string) (ks : list Qc) :
  (∀ k, k ∈ ks → all_chars (λ c, negb (is_eol c)) (cm k) = true) →
  length (readlines
            (foldr (λ pos acc, Format.row (x pos) (i pos) (cm pos) +:+ acc) "" ks))
  = length ks.
Proof.
  induction ks as [|k ks IH]; intros Hks; [done|]. cbn [foldr].
  rewrite readlines_row_one_line by (apply Hks; by left). simpl.
  rewrite IH; [done|]. intros k' Hk'. apply Hks. by right.
Qed.
End file_lines.

(** X10.  The file written by [Data.save_lines] has three header
    lines and one line per stored line, provided that the resolution is
    not 0 and that no comment of a stored line contains a line
    terminator. *)
Theorem save_lines_line_count (self : Data.t) :
  Data.plate_resolution self ≠ 0 →
  (∀ p c, is_Some (Data.emission_lines self !! p) → Data.comments self !! p = Some c →
          PyStr.all_chars (λ ch, negb (PyStr.is_eol ch)) c = true) →
  ∃ text, (Data.save_lines self).2 = Py.Ok text
          ∧ length (PyStr.readlines text) = (3 + size (Data.emission_lines self))%nat.
Proof.
  intros Hr Hcom. destruct (save_lines_spec self Hr) as (c' & ->).
  eexists. split; [done|]. rewrite readlines_header. cbn [length].
  rewrite (length_readlines_rows
             (λ pos, pos / Data.plate_resolution self + Data.plate_offset self)
             (λ pos, default 0 (Data.emission_lines self !! pos))
             (λ pos, default "" (Data.comments self !! pos))).
  - by rewrite merge_sort_Permutation, length_fmap, length_map_to_list.
  - intros k Hk. rewrite merge_sort_Permutation in Hk. apply elem_of_positions in Hk.
    destruct (Data.comments self !! k) as [c|] eqn:Hc; [|done]. by apply (Hcom k).
Qed.

Lemma save_lines_line_count_witness :
  let self := Data.mk (Py.of_Z 100) 0
                {[Py.of_Z 50 := Py.of_Z 128; Py.of_Z 70 := Py.of_Z 3]}
                {[Py.of_Z 50 := "H alpha"]} in
  ∃ text, (Data.save_lines self).2 = Py.Ok text
          ∧ length (PyStr.readlines text) = 5%nat.
Proof.
  intros self. apply (save_lines_line_count self); [by_compute|].
  intros p c _ Hc. simpl in Hc. apply lookup_singleton_Some in Hc as [_ <-]. done.
Defined.

(** X11.  The rows written by [Data.save_lines] are in ascending
    order of the position printed: with a positive resolution and
    comments without blanks, the rows read back from the file are as many
    as the stored lines and their positions never decrease. *)
Theorem save_lines_rows_ascending (self : Data.t) :
  0 < Data.plate_resolution self →
  (∀ p c, is_Some (Data.emission_lines self !! p) → Data.comments self !! p = Some c →
          PyStr.blank_free c = true) →
  ∃ text, (Data.save_lines self).2 = Py.Ok text
          ∧ (let rows := Format.parsed_prefix (drop 3 (PyStr.readlines text)) in
             length rows = size (Data.emission_lines self)
             ∧ Sorted Qcle (rows.*1.*1)).
Proof.
  intros Hr Hcom.
  assert (Data.plate_resolution self ≠ 0) as Hr0.
  { intros H. rewrite H in Hr. by apply Qclt_not_eq in Hr. }
  destruct (save_lines_spec self Hr0) as (c' & ->).
  eexists. split; [done|]. rewrite readlines_header. cbn [drop].
  rewrite drop_0.
  set (ks := merge_sort Qcle (map_to_list (Data.emission_lines self)).*1).
  assert (∀ k, k ∈ ks → PyStr.blank_free (default "" (Data.comments self !! k)) = true)
    as Hblank.
  { intros k Hk. unfold ks in Hk. rewrite merge_sort_Permutation in Hk.
    apply elem_of_positions in Hk.
    destruct (Data.comments self !! k) as [c|] eqn:Hc; [|done]. by apply (Hcom k). }
  rewrite (readlines_rows
             (λ pos, pos / Data.plate_resolution self + Data.plate_offset self)
             (λ pos, default 0 (Data.emission_lines self !! pos))
             (λ pos, default "" (Data.comments self !! pos))) by done.
  rewrite (parsed_prefix_rows
             (λ pos, pos / Data.plate_resolution self + Data.plate_offset self)
             (λ pos, default 0 (Data.emission_lines self !! pos))
             (λ pos, default "" (Data.comments self !! pos))) by done.
  cbv zeta. split.
  - unfold ks.
    by rewrite length_fmap, merge_sort_Permutation, length_fmap, length_map_to_list.
  - rewrite <-!list_fmap_compose.
    apply (Sorted_fmap _ Qcle Qcle); [|apply (Sorted_merge_sort Qcle)].
    intros p1 p2 Hp. simpl. by apply round_mono, physical_position_mono.
Qed.

Lemma save_lines_rows_ascending_witness :
  let self := Data.mk (Py.of_Z 100) 0
                {[Py.of_Z 70 := Py.of_Z 3; Py.of_Z 50 := Py.of_Z 128]} ∅ in
  ∃ text, (Data.save_lines self).2 = Py.Ok text
          ∧ (let rows := Format.parsed_prefix (drop 3 (PyStr.readlines text)) in
             length rows = size (Data.emission_lines self)
             ∧ Sorted Qcle (rows.*1.*1)).
Proof.
  intros self. apply (save_lines_rows_ascending self); [by_compute|].
  intros p c _ Hc. done.
Defined.

(** ** load_lines: what is read, and where it stops *)

Section load_more.
Import Data.

Lemma for_app {S A} (xs ys : list A) (body : A → Py.M S ()) (s : S) :
  Py.for_ (xs ++ ys) body s
  = match Py.for_ xs body s with
    | (s', Py.Ok _) => Py.for_ ys body s'
    | (s', Py.Raise e) => (s', Py.Raise e)
    end.
Proof.
  revert s. induction xs as [|x xs IH]; intros s; [done|]. simpl.
  unfold Py.bind. destruct (body x s) as [s1 [[]|e]]; [apply IH|done].
Qed.

Lemma load_row_blank (line : string) (self : t) :
  PyStr.split line = [] →
  load_row line self = (self, Py.Raise Py.IndexError).
Proof. intros H. unfold load_row, Py.index. run. by rewrite H. Qed.

Lemma load_rows_ok (rows : list string) (entries : list (Qc * Qc * string)) (self : t) :
  Forall2 (λ line e, Format.row_fields line = Some e) rows entries →
  Py.for_ rows load_row self
  = (mk (plate_resolution self) (plate_offset self)
        (foldl (λ m e, <[Format.pixel_position (plate_resolution self)
                           (plate_offset self) e.1.1 := e.1.2]> m)
               (emission_lines self) entries)
        (foldl (λ m e, <[Format.pixel_position (plate_resolution self)
                           (plate_offset self) e.1.1 := e.2]> m)
               (comments self) entries),
     Py.Ok ()).
Proof.
  intros Hrows. revert self.
  induction Hrows as [|line [[x i] c] rows entries He _ IH]; intros self.
  - by destruct self.
  - simpl. unfold Py.bind. rewrite (load_row_ok _ _ _ _ _ He). by rewrite IH.
Qed.
End load_more.

(** X12.  [Data.load_lines] does not read the third line of the file
    (the column titles): two files whose first two lines agree and whose
    lines from the fourth on agree are loaded with the same result,
    whatever their third lines are, or whether they have one. *)
Theorem load_lines_ignores_title_line (text1 text2 : string) (self : Data.t) :
  PyStr.readlines text1 !! 0%nat = PyStr.readlines text2 !! 0%nat →
  PyStr.readlines text1 !! 1%nat = PyStr.readlines text2 !! 1%nat →
  drop 3 (PyStr.readlines text1) = drop 3 (PyStr.readlines text2) →
  Data.load_lines (Some text1) self = Data.load_lines (Some text2) self.
Proof.
  intros H0 H1 H3. unfold Data.load_lines, Py.index. run.
  by rewrite H0, H1, H3.
Qed.

Lemma load_lines_ignores_title_line_witness :
  let self := Data.__init__ in
  let text1 := "Plate Resolution: 100.0 px/mm
Plate Offset: 1.5 mm
 Position | Intensity | Comments
   2.0050     128.000   
" in
  let text2 := "Plate Resolution: 100.0 px/mm
Plate Offset: 1.5 mm
anything at all
   2.0050     128.000   
" in
  Data.load_lines (Some text1) self = Data.load_lines (Some text2) self.
Proof.
  intros self text1 text2.
  apply (load_lines_ignores_title_line text1 text2 self); by_compute.
Defined.

(** X13.  The failures of [Data.load_lines] on the header.  An empty
    file, or a first line with fewer than three tokens, raises
    [IndexError]; a third token that is not a number (among the tokens on
    which [PyStr.float] is Python's [float]: no underscore, no spelling
    of infinity or nan) raises [ValueError]; in these cases the lines and
    comments have been emptied and the calibration is kept.  A file that
    stops after a well-formed first line raises [IndexError] with the
    resolution already replaced. *)
Theorem load_lines_header_errors (text : string) (self : Data.t) :
  let r := Data.plate_resolution self in
  let o := Data.plate_offset self in
  let lines_file := PyStr.readlines text in
  (lines_file !! 0%nat = None →
   Data.load_lines (Some text) self = (Data.mk r o ∅ ∅, Py.Raise Py.IndexError))
  ∧ (∀ line0, lines_file !! 0%nat = Some line0 →
       PyStr.split line0 !! 2%nat = None →
       Data.load_lines (Some text) self = (Data.mk r o ∅ ∅, Py.Raise Py.IndexError))
  ∧ (∀ line0 tok, lines_file !! 0%nat = Some line0 →
       PyStr.split line0 !! 2%nat = Some tok →
       PyStr.float_covers tok = true → PyStr.float tok = None →
       Data.load_lines (Some text) self = (Data.mk r o ∅ ∅, Py.Raise Py.ValueError))
  ∧ (∀ r', Format.header_value (lines_file !! 0%nat) = Some r' →
       lines_file !! 1%nat = None →
       Data.load_lines (Some text) self = (Data.mk r' o ∅ ∅, Py.Raise Py.IndexError)).
Proof.
  intros r o lines_file. unfold Data.load_lines, Py.index, Data.float. run.
  fold lines_file. split; [|split; [|split]].
  - by intros ->.
  - intros line0 -> H2. run. by rewrite H2.
  - intros line0 tok -> H2 _ Hf. run. rewrite H2. run. by rewrite Hf.
  - intros r' Hr' H1. unfold Format.header_value in Hr'.
    destruct (lines_file !! 0%nat) as [line0|]; [|done]. simpl in Hr'. run.
    destruct (PyStr.split line0 !! 2%nat) as [tok|]; [|done]. simpl in Hr'. run.
    rewrite Hr'. run. by rewrite H1.
Qed.

(** X14.  A blank line among the rows stops [Data.load_lines]: the
    well-formed rows in front of it are stored under the calibration of
    the header, then [line.split()[0]] raises [IndexError] and the rows
    after the blank line are not read. *)
Theorem load_lines_blank_row (text : string) (self : Data.t) (r o : Qc)
    (good : list string) (blank : string) (rest : list string)
    (entries : list (Qc * Qc * string)) :
  let lines_file := PyStr.readlines text in
  Format.header_value (lines_file !! 0%nat) = Some r →
  Format.header_value (lines_file !! 1%nat) = Some o →
  drop 3 lines_file = good ++ blank :: rest →
  Forall2 (λ line e, Format.row_fields line = Some e) good entries →
  PyStr.split blank = [] →
  Data.load_lines (Some text) self
  = (Data.mk r o (Format.lines_of r o entries) (Format.comments_of r o entries),
     Py.Raise Py.IndexError).
Proof.
  intros lines_file Hr Ho Hrows Hgood Hblank.
  unfold Data.load_lines, Py.index, Data.float. run. fold lines_file.
  unfold Format.header_value in Hr, Ho.
  destruct (lines_file !! 0%nat) as [line0|]; [|done]. simpl in Hr. run.
  destruct (PyStr.split line0 !! 2%nat) as [tok0|]; [|done]. simpl in Hr. run.
  rewrite Hr. run.
  destruct (lines_file !! 1%nat) as [line1|]; [|done]. simpl in Ho. run.
  destruct (PyStr.split line1 !! 2%nat) as [tok1|]; [|done]. simpl in Ho. run.
  rewrite Ho. run. rewrite Hrows, for_app.
  unfold Data.set_plate_offset, Data.set_plate_resolution, Data.set_comments,
    Data.set_emission_lines. simpl.
  rewrite (load_rows_ok good entries _ Hgood). simpl. unfold Py.bind.
  by rewrite load_row_blank.
Qed.

Lemma load_lines_blank_row_witness :
  let text := "Plate Resolution: 100.0 px/mm
Plate Offset: 1.5 mm
 Position | Intensity | Comments
   2.0050     128.000   

" in
  Data.load_lines (Some text) Data.__init__
  = (Data.mk (Py.of_Z 100) (Q2Qc (3 # 2))
       (Format.lines_of (Py.of_Z 100) (Q2Qc (3 # 2))
          [(Q2Qc (2005 # 1000), Py.of_Z 128, "")])
       (Format.comments_of (Py.of_Z 100) (Q2Qc (3 # 2))
          [(Q2Qc (2005 # 1000), Py.of_Z 128, "")]),
     Py.Raise Py.IndexError).
Proof.
  intros text.
  apply (load_lines_blank_row text Data.__init__ (Py.of_Z 100) (Q2Qc (3 # 2))
           ["   2.0050     128.000   
"] "
" []); by_compute.
Defined.

(** ** scan_plate and get_plate_file on single-band images *)

Section samples.
Import Comparator.

Lemma Q2Qc_inject_mult (a b : Z) :
  Q2Qc (inject_Z (a * b)) = Q2Qc (inject_Z a) * Q2Qc (inject_Z b).
Proof.
  apply Qc_is_canon. unfold Qcmult. cbn [this Q2Qc]. rewrite !Qred_correct.
  rewrite inject_Z_mult. reflexivity.
Qed.

Lemma Q2Qc_inject_nonzero (a : Z) : a ≠ 0%Z → Q2Qc (inject_Z a) ≠ 0.
Proof.
  intros Ha H. apply (f_equal this) in H. cbn [this Q2Qc] in H.
  assert (Qred (inject_Z a) == 0)%Q as HH by (rewrite H; reflexivity).
  rewrite Qred_correct in HH. unfold Qeq in HH. simpl in HH. lia.
Qed.

(** The sum of a column, between the bounds of its pixels. *)
Lemma column_sum_bounds (f : nat → Z) (lo hi : Z) (start h : nat) :
  (∀ y, lo ≤ f y ≤ hi)%Z →
  (Z.of_nat h * lo ≤ foldr Z.add 0 (f <$> seq start h) ≤ Z.of_nat h * hi)%Z.
Proof.
  intros Hf. revert start. induction h as [|h IH]; intros start; [simpl; lia|].
  cbn [seq fmap list_fmap foldr].
  specialize (IH (S start)). specialize (Hf start).
  rewrite Nat2Z.inj_succ, !Z.mul_succ_l. lia.
Qed.

Lemma mean_bounds (s : Z) (h : nat) (lo hi : Z) :
  (1 ≤ h)%nat → (Z.of_nat h * lo ≤ s ≤ Z.of_nat h * hi)%Z →
  Py.of_Z lo ≤ Q2Qc (inject_Z s) / Q2Qc (inject_Z (Z.of_nat h))
  ∧ Q2Qc (inject_Z s) / Q2Qc (inject_Z (Z.of_nat h)) ≤ Py.of_Z hi.
Proof.
  intros Hh [Hlo Hhi]. unfold Py.of_Z.
  assert (0 < Q2Qc (inject_Z (Z.of_nat h))) as Hpos by (apply Q2Qc_inject_pos; lia).
  assert (Q2Qc (inject_Z (Z.of_nat h)) ≠ 0) as Hne
    by (apply Q2Qc_inject_nonzero; lia).
  assert (∀ a : Z, Q2Qc (inject_Z a)
                   = Q2Qc (inject_Z (Z.of_nat h * a)) / Q2Qc (inject_Z (Z.of_nat h)))
    as Hdiv.
  { intros a. rewrite Q2Qc_inject_mult. by field. }
  rewrite (Hdiv lo), (Hdiv hi). unfold Qcdiv.
  split; (apply Qcmult_le_mono_nonneg_r;
          [by apply Qclt_le_weak, Qcinv_pos|by apply Q2Qc_inject_le]).
Qed.
End samples.

(** X15.  For a single-band image of height at least 1 whose pixels
    are bytes, [scan_plate] computes one sample per column and every
    sample lies between 1 and 256. *)
Theorem scan_plate_samples_bounds (h w : nat) (px : list nat → Z) :
  (1 ≤ h)%nat →
  (∀ idx, 0 ≤ px idx ≤ 255)%Z →
  length (Comparator.scan_plate_intensity (Np.mk [h; w] px)) = w
  ∧ Forall (λ s, Py.of_Z 1 ≤ s ∧ s ≤ Py.of_Z 256)
           (Comparator.scan_plate_intensity (Np.mk [h; w] px)).
Proof.
  intros Hh Hpx. rewrite scan_plate_intensity_grayscale. split.
  - by rewrite length_fmap, length_seq.
  - apply list.Forall_forall. intros s (x & -> & _)%list_elem_of_fmap.
    destruct (mean_bounds (foldr Z.add 0%Z ((λ y, px [y; x]) <$> seq 0 h)) h 0 255 Hh)
      as [Hlo Hhi].
    { apply column_sum_bounds. intros y. apply Hpx. }
    unfold Py.of_Z in *.
    set (mean := _ / _) in *. clearbody mean.
    split; qc_unfold; unfold inject_Z in *; lra.
Qed.

Lemma scan_plate_samples_bounds_witness :
  let px (idx : list nat) : Z :=
    match idx with
    | [0; 0]%nat => 0 | [0; 1]%nat => 255 | [1; 0]%nat => 0 | [1; 1]%nat => 255
    | _ => 128
    end%Z in
  Forall (λ s, Py.of_Z 1 ≤ s ∧ s ≤ Py.of_Z 256)
         (Comparator.scan_plate_intensity (Np.mk [2; 2]%nat px)).
Proof.
  intros px. apply (scan_plate_samples_bounds 2 2 px); [lia|].
  intros idx. unfold px. repeat (destruct idx as [|[|[|?]] idx]; try lia).
Defined.

(** X16.  For a single-band image of height at least 1 whose pixels
    all have the value [v], every sample of [scan_plate] is [256 - v]. *)
Theorem scan_plate_uniform (h w : nat) (v : Z) :
  (1 ≤ h)%nat →
  Comparator.scan_plate_intensity (Np.mk [h; w] (λ _, v))
  = replicate w (Py.of_Z 256 - Py.of_Z v).
Proof.
  intros Hh. rewrite scan_plate_intensity_grayscale.
  assert (∀ start, foldr Z.add 0%Z ((λ _ : nat, v) <$> seq start h)
                   = (Z.of_nat h * v)%Z) as Hsum.
  { induction h as [|h' IH]; intros start; [simpl; lia|].
    destruct (decide (h' = 0%nat)) as [->|]; [simpl; lia|].
    cbn [seq fmap list_fmap foldr]. rewrite IH by lia. lia. }
  rewrite Hsum, Q2Qc_inject_mult.
  assert (Q2Qc (inject_Z (Z.of_nat h)) * Q2Qc (inject_Z v)
          / Q2Qc (inject_Z (Z.of_nat h)) = Py.of_Z v) as ->.
  { unfold Py.of_Z. field. apply Q2Qc_inject_nonzero. lia. }
  generalize 0%nat. induction w as [|w IH]; intros start; [done|].
  simpl. by rewrite IH.
Qed.

Lemma scan_plate_uniform_witness :
  Comparator.scan_plate_intensity (Np.mk [7; 3]%nat (λ _, 128%Z))
  = [Py.of_Z 128; Py.of_Z 128; Py.of_Z 128].
Proof.
  rewrite (scan_plate_uniform 7 3 128) by lia. by_compute.
Defined.

(** X17.  [get_plate_file] never touches the stored lines, the scan
    position or the notification label, whether it succeeds or fails,
    and whichever step fails; when the file cannot be opened as an image
    it raises [OSError] and the width and the interpolant are as they
    were too. *)
Theorem get_plate_file_keeps_lines
    (interp1d : list Qc → list Qc → Py.result (Qc → Qc))
    (file : option Np.ndarray) (display : Py.result ()) (self : Comparator.t) :
  let self' := (Comparator.get_plate_file interp1d file display self).1 in
  Comparator.data self' = Comparator.data self
  ∧ Comparator.M self' = Comparator.M self
  ∧ Comparator.comment_notif self' = Comparator.comment_notif self
  ∧ (file = None →
     (Comparator.get_plate_file interp1d file display self).2 = Py.Raise Py.OSError
     ∧ Comparator.plate_width self' = Comparator.plate_width self
     ∧ Comparator.intensity self' = Comparator.intensity self).
Proof.
  intros self'. subst self'.
  unfold Comparator.get_plate_file, Comparator.load_plate, Comparator.scan_plate.
  destruct file as [img|]; run.
  - destruct display as [[]|e]; run; [|done].
    by destruct (interp1d _ _) as [f|e]; run.
  - done.
Qed.

(** X18.  For a single-band image of width [w], [get_plate_file] sets
    [plate_width] to [w] and, when the display of the plate succeeds,
    hands [interp1d] the [w] abscissas [range(w)] and [w] samples.  When
    [interp1d] raises, or when the display of the plate raises, the new
    [plate_width] stays while the previous [intensity] is kept. *)
Theorem get_plate_file_grayscale_lengths
    (interp1d : list Qc → list Qc → Py.result (Qc → Qc))
    (h w : nat) (px : list nat → Z) (self : Comparator.t) :
  let img := Np.mk [h; w] px in
  length (Comparator.range (Z.of_nat w)) = w
  ∧ length (Comparator.scan_plate_intensity img) = w
  ∧ Comparator.get_plate_file interp1d (Some img) (Py.Ok ()) self
    = match interp1d (Comparator.range (Z.of_nat w))
              (Comparator.scan_plate_intensity img) with
      | Py.Ok f => (Comparator.set_intensity f
                      (Comparator.set_plate_width (Z.of_nat w) self), Py.Ok ())
      | Py.Raise e => (Comparator.set_plate_width (Z.of_nat w) self, Py.Raise e)
      end
  ∧ ∀ e, Comparator.get_plate_file interp1d (Some img) (Py.Raise e) self
         = (Comparator.set_plate_width (Z.of_nat w) self, Py.Raise e).
Proof.
  intros img. subst img. split; [|split; [|split]].
  - unfold Comparator.range. by rewrite length_fmap, length_seq, Nat2Z.id.
  - apply scan_plate_intensity_grayscale_length.
  - unfold Comparator.get_plate_file, Comparator.load_plate, Comparator.scan_plate.
    run. by destruct (interp1d _ _).
  - intros e.
    unfold Comparator.get_plate_file, Comparator.load_plate, Comparator.scan_plate.
    by run.
Qed.

(** ** The window shown and the scan position *)

Section clamping.
Import Comparator.

(** [min(max(x, lo), hi)] *)
Lemma clamp_bounds (x lo hi : Qc) :
  lo ≤ hi → lo ≤ PySeq.min (PySeq.max x lo) hi ∧ PySeq.min (PySeq.max x lo) hi ≤ hi.
Proof.
  intros H. unfold PySeq.min, PySeq.max.
  repeat destruct (decide _); split; qc_lra.
Qed.

Lemma clamp_mono (x y lo hi : Qc) :
  x ≤ y → PySeq.min (PySeq.max x lo) hi ≤ PySeq.min (PySeq.max y lo) hi.
Proof.
  intros H. unfold PySeq.min, PySeq.max.
  repeat destruct (decide _); qc_lra.
Qed.

Lemma clamp_inside (x lo hi : Qc) :
  lo ≤ x → x ≤ hi → PySeq.min (PySeq.max x lo) hi = x.
Proof.
  intros H1 H2. unfold PySeq.min, PySeq.max.
  repeat destruct (decide _); try done; exfalso; qc_lra.
Qed.

Lemma Qcmult_nonneg (a b : Qc) : 0 ≤ a → 0 ≤ b → 0 ≤ a * b.
Proof.
  intros Ha Hb. pose proof (Qcmult_le_compat_r 0 a b Ha Hb) as H.
  by rewrite Qcmult_0_l in H.
Qed.

Lemma of_Z_nonneg (n : Z) : (0 ≤ n)%Z → 0 ≤ Py.of_Z n.
Proof. intros H. apply (Q2Qc_inject_le 0 n H). Qed.
End clamping.

(** X19.  The mouse offset computed in [redraw] from a click at [x] on
    a canvas of width [width]: a width of 0 raises [ZeroDivisionError];
    otherwise the offset lies between 0 and 1, and is [x / width] for a
    click inside the canvas. *)
Theorem mouse_offset_clamped (x width : Z) (self : Comparator.t) :
  (width = 0%Z →
   Comparator.mouse_offset x width self = (self, Py.Raise Py.ZeroDivisionError))
  ∧ (width ≠ 0%Z →
     ∃ m, Comparator.mouse_offset x width self = (self, Py.Ok m)
          ∧ 0 ≤ m ∧ m ≤ 1
          ∧ ((0 ≤ x ≤ width)%Z → m = Py.of_Z x / Py.of_Z width)).
Proof.
  unfold Comparator.mouse_offset, Py.truediv. split.
  - intros ->. by run.
  - intros Hw. run. rewrite decide_False by by apply Q2Qc_inject_nonzero.
    run. eexists. split; [done|].
    destruct (clamp_bounds (Py.of_Z x / Py.of_Z width) 0 1) as [H0 H1]; [done|].
    repeat (split; [done|]). intros [Hx Hxw].
    assert (0 < Py.of_Z width) as Hpos by (apply Q2Qc_inject_pos; lia).
    assert (Py.of_Z width ≠ 0) as Hne by (by apply Q2Qc_inject_nonzero).
    apply clamp_inside.
    + unfold Qcdiv. apply Qcmult_nonneg; [by apply of_Z_nonneg|].
      by apply Qclt_le_weak, Qcinv_pos.
    + replace 1 with (Py.of_Z width / Py.of_Z width) by (by field).
      unfold Qcdiv. apply Qcmult_le_mono_nonneg_r;
        [by apply Qclt_le_weak, Qcinv_pos|by apply Q2Qc_inject_le].
Qed.

(** X20.  The window of [plate_redraw] and [int_redraw], for a plate of
    width at least 0: whatever fractions the scroll bar gives, the bounds
    [L] and [R] lie between 0 and [plate_width], they are ordered as the
    two fractions are, and a fraction between 0 and 1 is not clipped. *)
Theorem window_bounds_in_plate (plate_width : Z) (i1 i2 : Qc) :
  (0 ≤ plate_width)%Z →
  let L := Comparator.window_bound plate_width i1 in
  let R := Comparator.window_bound plate_width i2 in
  (0 ≤ L ∧ L ≤ Py.of_Z plate_width)
  ∧ (0 ≤ R ∧ R ≤ Py.of_Z plate_width)
  ∧ (i1 ≤ i2 → L ≤ R)
  ∧ (0 ≤ i1 → i1 ≤ 1 → L = i1 * Py.of_Z plate_width).
Proof.
  intros Hw L R.
  pose proof (of_Z_nonneg _ Hw) as Hw'.
  split; [by apply clamp_bounds|]. split; [by apply clamp_bounds|]. split.
  - intros Hi. apply clamp_mono. by apply Qcmult_le_compat_r.
  - intros H0 H1. apply clamp_inside.
    + by apply Qcmult_nonneg.
    + pose proof (Qcmult_le_compat_r i1 1 _ H1 Hw') as H.
      by rewrite Qcmult_1_l in H.
Qed.

Lemma window_bounds_in_plate_witness :
  let L := Comparator.window_bound 1000 (Q2Qc (- 1 # 4)) in
  let R := Comparator.window_bound 1000 (Q2Qc (3 # 4)) in
  (0 ≤ L ∧ L ≤ Py.of_Z 1000) ∧ (0 ≤ R ∧ R ≤ Py.of_Z 1000).
Proof.
  intros L R.
  destruct (window_bounds_in_plate 1000 (Q2Qc (- 1 # 4)) (Q2Qc (3 # 4)))
    as (HL & HR & _); [lia|].
  by split.
Defined.

(** X21.  [mir_redraw] assigns [self.M] before anything can fail: with
    a zoom of 0 it raises [ZeroDivisionError] and [self.M] is the new
    position all the same.  With a positive zoom and [Left <= Right] the
    bounds of the zoomed section enclose the position rounded to two
    decimals.  An [add_line] that follows stores the line at the position
    given to [mir_redraw], when it is inside the plate. *)
Theorem mir_redraw_sets_scan_position (Left Mid Right : Qc) (zoom : Z)
    (self : Comparator.t) :
  (zoom = 0%Z →
   Comparator.mir_redraw Left Mid Right zoom self
   = (Comparator.set_M Mid self, Py.Raise Py.ZeroDivisionError))
  ∧ (zoom ≠ 0%Z →
     ∃ ML MR,
       Comparator.mir_redraw Left Mid Right zoom self
       = (Comparator.set_M Mid self, Py.Ok (ML, MR))
       ∧ ((0 < zoom)%Z → Left ≤ Right →
          ML ≤ PyStr.round Mid 2 ∧ PyStr.round Mid 2 ≤ MR))
  ∧ (0 < Mid → Mid < Py.of_Z (Comparator.plate_width self) →
     let self' := (Comparator.add_line
                     (Comparator.mir_redraw Left Mid Right zoom self).1).1 in
     Data.emission_lines (Comparator.data self')
     = <[Mid := Comparator.intensity self Mid]>
         (Data.emission_lines (Comparator.data self))
     ∧ Comparator.comment_notif self' = "Line added.").
Proof.
  split; [|split].
  - intros ->. unfold Comparator.mir_redraw, Py.truediv. by run.
  - intros Hz. unfold Comparator.mir_redraw, Py.truediv. run. rewrite decide_False by by apply Q2Qc_inject_nonzero.
    run. do 2 eexists. split; [done|]. intros Hpos HLR.
    assert (0 ≤ (Right - Left) / Py.of_Z zoom) as HW.
    { unfold Qcdiv. apply Qcmult_nonneg.
      - revert HLR. generalize Left Right. intros. qc_lra.
      - apply Qclt_le_weak, Qcinv_pos. by apply Q2Qc_inject_pos. }
    set (W := (Right - Left) / Py.of_Z zoom) in *. clearbody W.
    split; apply round_mono; revert HW; generalize Mid W; intros; qc_lra.
  - intros H0 Hw self'. subst self'.
    assert ((Comparator.mir_redraw Left Mid Right zoom self).1
            = Comparator.set_M Mid self) as ->.
    { unfold Comparator.mir_redraw, Py.truediv. run. by destruct (decide _). }
    by rewrite add_line_in_bounds.
Qed.

Section file_names.
Import Comparator.

Lemma take_append (s1 s2 : string) : PySeq.take (String.length s1) (s1 +:+ s2) = s1.
Proof.
  induction s1 as [|c s1 IH]; [by destruct s2|].
  rewrite append_cons. simpl. by rewrite IH.
Qed.

Lemma take_0 (s : string) : PySeq.take 0 s = "".
Proof. by destruct s. Qed.
End file_names.

(** X22.  The name of the file written by [Comparator.save_lines] is
    the name of the image without its last four characters, whatever they
    are, followed by [_lines.dat]: images whose names differ in their last
    four characters only share one file of lines, and a name of four
    characters gives [_lines.dat]. *)
Theorem lines_file_name_drops_four_characters (stem ext : string) :
  String.length ext = 4%nat →
  Comparator.lines_file_name (stem +:+ ext) = stem +:+ "_lines.dat"
  ∧ Comparator.lines_file_name ext = "_lines.dat".
Proof.
  intros Hext. unfold Comparator.lines_file_name, PySeq.but_last.
  rewrite length_append, Hext. split.
  - replace (String.length stem + 4 - 4)%nat with (String.length stem) by lia.
    by rewrite take_append.
  - by rewrite take_0.
Qed.

Lemma lines_file_name_drops_four_characters_witness :
  Comparator.lines_file_name ("plate" +:+ ".bmp") = "plate" +:+ "_lines.dat"
  ∧ Comparator.lines_file_name ("plate" +:+ ".png") = "plate" +:+ "_lines.dat".
Proof.
  split.
  - by apply (lines_file_name_drops_four_characters "plate" ".bmp").
  - by apply (lines_file_name_drops_four_characters "plate" ".png").
Defined.

(** ** set_dpi, set_offset and the file they lead to *)

(** X23.  [set_dpi] does not validate the number typed in.  A text
    that reads as 0 is recorded as a resolution of 0 with the message
    "DPI recorded."; if lines are stored, the [save_lines] that follows
    raises [ZeroDivisionError] and the message stays. *)
Theorem set_dpi_zero_breaks_save_lines (text file : string) (self : Comparator.t) :
  PyStr.float text = Some 0 →
  Data.emission_lines (Comparator.data self) ≠ ∅ →
  ∃ self',
    Comparator.set_dpi text self = (self', Py.Ok ())
    ∧ Data.plate_resolution (Comparator.data self') = 0
    ∧ Comparator.comment_notif self' = "DPI recorded."
    ∧ Comparator.save_lines file self' = (self', Py.Raise Py.ZeroDivisionError).
Proof.
  intros Ht Hne.
  unfold Comparator.set_dpi, Comparator.float, Py.truediv, Comparator.self_data,
    Comparator.configure.
  rewrite Ht. run. eexists. split; [done|]. simpl.
  split; [by_compute|]. split; [done|].
  unfold Comparator.save_lines, Comparator.self_data. run.
  rewrite save_lines_zero_division; [by run| |done].
  simpl. by_compute.
Qed.

Lemma set_dpi_zero_breaks_save_lines_witness :
  let self := Comparator.mk (Data.mk (Py.of_Z 100) 0 {[Py.of_Z 50 := Py.of_Z 128]} ∅)
                            0 100 (λ _, 0) "" in
  ∃ self',
    Comparator.set_dpi "0" self = (self', Py.Ok ())
    ∧ Data.plate_resolution (Comparator.data self') = 0
    ∧ Comparator.comment_notif self' = "DPI recorded."
    ∧ Comparator.save_lines "plate.bmp" self'
      = (self', Py.Raise Py.ZeroDivisionError).
Proof.
  intros self. apply (set_dpi_zero_breaks_save_lines "0" "plate.bmp" self).
  - by_compute.
  - intros H. apply (f_equal (λ m : gmap Qc Qc, m !! Py.of_Z 50)) in H.
    revert H. by_compute.
Defined.

(** X24.  The offset is applied when the file is written.  After
    [set_offset] with a text that reads as [v], [save_lines] (the
    resolution not being 0) writes the header with the offset [v] and
    every stored line at [pos / resolution + v], the lines having been
    left as they were by [set_offset]. *)
Theorem set_offset_then_save_lines (text file : string) (v : Qc)
    (self : Comparator.t) :
  PyStr.float text = Some v →
  Data.plate_resolution (Comparator.data self) ≠ 0 →
  let d := Comparator.data self in
  ∃ self1 self2,
    Comparator.set_offset text self = (self1, Py.Ok ())
    ∧ Data.emission_lines (Comparator.data self1) = Data.emission_lines d
    ∧ Comparator.save_lines file self1
      = (self2,
         Py.Ok (Comparator.lines_file_name file,
                Format.header (Data.plate_resolution d) v +:+
                foldr (λ pos acc,
                         Format.row (pos / Data.plate_resolution d + v)
                           (default 0 (Data.emission_lines d !! pos))
                           (default "" (Data.comments d !! pos)) +:+ acc)
                      "" (merge_sort Qcle (map_to_list (Data.emission_lines d)).*1)))
    ∧ Comparator.comment_notif self2 = "Lines saved. You may now safely exit.".
Proof.
  intros Ht Hr d.
  unfold Comparator.set_offset, Comparator.float, Comparator.self_data,
    Comparator.configure.
  rewrite Ht. run.
  destruct (save_lines_spec
              (Data.mk (Data.plate_resolution d) v (Data.emission_lines d)
                       (Data.comments d))) as (c' & Hsave); [done|].
  simpl in Hsave. subst d.
  do 2 eexists. split; [done|]. split; [done|].
  unfold Comparator.save_lines, Comparator.self_data, Comparator.configure. run.
  unfold Data.set_plate_offset. rewrite Hsave. run. done.
Qed.

Lemma set_offset_then_save_lines_witness :
  let self := Comparator.mk (Data.mk (Py.of_Z 100) 0 {[Py.of_Z 50 := Py.of_Z 128]} ∅)
                            0 100 (λ _, 0) "" in
  ∃ self1 self2,
    Comparator.set_offset "1.5" self = (self1, Py.Ok ())
    ∧ (Comparator.save_lines "plate.bmp" self1).1 = self2
    ∧ Comparator.comment_notif self2 = "Lines saved. You may now safely exit.".
Proof.
  intros self.
  destruct (set_offset_then_save_lines "1.5" "plate.bmp" (Q2Qc (3 # 2)) self)
    as (self1 & self2 & H1 & _ & H2 & H3); [by_compute..|].
  exists self1, self2. split; [done|]. split; [by rewrite H2|done].
Defined.
